(** * The A2A request handler of the planner agent

    A shallow embedding of [a2aAgentRoute]
    (src/mastra/agents/planner-agent.ts), the handler registered for
    [POST /a2a/agent/:agentId], and the properties its specification states.

    The handler is JavaScript working on untyped JSON, so the development
    starts with a small model of the JavaScript values and built-ins the
    handler touches (module [JS]), continues with the handler itself written
    in a state-and-exception monad, and ends with the theorems. *)

From Stdlib Require Import String Ascii ZArith List Bool Lia.
From Stdlib Require Import DecimalString DecimalZ DecimalPos FinFun.
From Stdlib Require PrimFloat FloatOps SpecFloat.
Import ListNotations.
Open Scope string_scope.
Set Warnings "-register-all".

(** ** JavaScript values and the built-ins the handler uses *)

Module JS.

(** A JavaScript number is an IEEE 754 double: fractions, both zeros, the
    infinities and NaN included. *)
Definition number : Type := PrimFloat.float.

(** An integer as a number, the way an integer literal of the source is read:
    binary digit by binary digit, which is exact up to 2^53 in magnitude. *)
Fixpoint number_of_positive (p : positive) : number :=
  match p with
  | xH => PrimFloat.one
  | xO q => PrimFloat.mul PrimFloat.two (number_of_positive q)
  | xI q => PrimFloat.add (PrimFloat.mul PrimFloat.two (number_of_positive q)) PrimFloat.one
  end.

Definition number_of_Z (z : Z) : number :=
  match z with
  | Z0 => PrimFloat.zero
  | Zpos p => number_of_positive p
  | Zneg p => PrimFloat.opp (number_of_positive p)
  end.

Coercion number_of_Z : Z >-> number.

(** Values as [JSON.parse] produces them, plus [undefined], which shows up
    whenever a missing property is read.  An object lists its own enumerable
    properties in enumeration order, each key once.  Strings are the UTF-8
    bytes of well-formed text. *)
Inductive value : Type :=
| VUndefined
| VNull
| VBool (b : bool)
| VNum (x : number)
| VStr (s : string)
| VArr (items : list value)
| VObj (props : list (string * value)).

(** What the engine reports when an operation has no meaning. *)
Inductive type_error : Type :=
| NullishAccess (v : value) (key : string)  (* reading [key] of null/undefined *)
| NotAFunction (key : string)               (* calling a property that is no function *)
| NoPrimitive.                              (* an object with no usable toString/valueOf *)

(** Whatever a [throw] (or a rejected promise) can carry: an error raised by
    the engine, an [Error] instance with its message, or any value at all. *)
Inductive exn : Type :=
| TypeError (t : type_error)
| ErrorObject (message : string)
| Thrown (v : value).

Arguments VNum x%_Z.

Inductive outcome (A : Type) : Type :=
| Ok (a : A)
| Throw (e : exn).
Arguments Ok {A} a.
Arguments Throw {A} e.

(** The double quote, the line feed and the backslash as one-character strings. *)
Definition dquote : ascii := "034"%char.
Definition dq : string := String dquote "".
Definition lf : string := String "010"%char "".
Definition backslash : string := String "092"%char "".

(** ToBoolean: of the numbers, the two zeros and NaN are falsy. *)
Definition truthy (v : value) : bool :=
  match v with
  | VUndefined | VNull => false
  | VBool b => b
  | VNum x => negb (PrimFloat.is_zero x || PrimFloat.is_nan x)
  | VStr s => negb (s =? "")
  | VArr _ | VObj _ => true
  end.

(** [a || b] when [b] has no effect. *)
Definition or_else (a b : value) : value := if truthy a then a else b.

Definition nullish (v : value) : bool :=
  match v with VUndefined | VNull => true | _ => false end.

(** [v === "s"] for a string literal. *)
Definition is_string (v : value) (s : string) : bool :=
  match v with VStr t => (t =? s) | _ => false end.

(** [v === false]. *)
Definition is_false (v : value) : bool :=
  match v with VBool false => true | _ => false end.

(** [typeof v === "object"]. *)
Definition typeof_object (v : value) : bool :=
  match v with VNull | VArr _ | VObj _ => true | _ => false end.

Fixpoint lookup (key : string) (props : list (string * value)) : value :=
  match props with
  | [] => VUndefined
  | (k, v) :: rest => if (k =? key) then v else lookup key rest
  end.

Definition has_key (key : string) (props : list (string * value)) : bool :=
  existsb (fun kv => fst kv =? key) props.

(** [v?.key]: the own data property [key] of an object and [undefined]
    elsewhere.  It is applied only to the property names the handler reads
    (kind, role, parts, ...), none of which a prototype supplies. *)
Definition opt_prop (v : value) (key : string) : value :=
  match v with
  | VObj props => lookup key props
  | _ => VUndefined
  end.

(** [v.key], which throws on null and undefined. *)
Definition get_prop (v : value) (key : string) : outcome value :=
  if nullish v then Throw (TypeError (NullishAccess v key))
  else Ok (opt_prop v key).

(** The conversions to text all render numbers with Number::toString, whose
    digits are the engine's: the shortest that read back as the same double,
    in exponent form from 1e21 on and below 1e-6, the last digit left to the
    implementation.  It is a parameter here, and the handler takes it from
    its surroundings. *)
Section Rendering.

Variable number_to_string : number -> string.

(** ToString.  Arrays go through [Array.prototype.join] with a comma, where
    null and undefined elements give the empty string.  A plain object gives
    ["[object Object]"], unless it carries an own [toString] property: parsed
    JSON holds no function, so that property is not callable, [valueOf] does
    not yield a primitive either, and the conversion throws. *)
Fixpoint to_string (v : value) : outcome string :=
  match v with
  | VUndefined => Ok "undefined"
  | VNull => Ok "null"
  | VBool true => Ok "true"
  | VBool false => Ok "false"
  | VNum x => Ok (number_to_string x)
  | VStr s => Ok s
  | VArr items =>
      let fix each (l : list value) : outcome (list string) :=
        match l with
        | [] => Ok []
        | x :: rest =>
            match (if nullish x then Ok "" else to_string x) with
            | Throw e => Throw e
            | Ok s => match each rest with
                      | Throw e => Throw e
                      | Ok ss => Ok (s :: ss)
                      end
            end
        end in
      match each items with
      | Throw e => Throw e
      | Ok ss => Ok (String.concat "," ss)
      end
  | VObj props =>
      if has_key "toString" props then Throw (TypeError NoPrimitive)
      else Ok "[object Object]"
  end.

(** The element conversion of [Array.prototype.join]. *)
Definition join_item (x : value) : outcome string :=
  if nullish x then Ok "" else to_string x.

Fixpoint join_items (l : list value) : outcome (list string) :=
  match l with
  | [] => Ok []
  | x :: rest =>
      match join_item x with
      | Throw e => Throw e
      | Ok s => match join_items rest with
                | Throw e => Throw e
                | Ok ss => Ok (s :: ss)
                end
      end
  end.

(** [items.join(sep)]. *)
Definition array_join (sep : string) (items : list value) : outcome string :=
  match join_items items with
  | Throw e => Throw e
  | Ok ss => Ok (String.concat sep ss)
  end.

(** QuoteJSONString: the two-character escapes, a [u00xx] escape for the
    other control characters, everything else as it is. *)
Definition hex_digit (n : nat) : string :=
  String.substring n 1 "0123456789abcdef".

Definition escape_char (c : ascii) : string :=
  let n := nat_of_ascii c in
  if (n =? 8)%nat then backslash ++ "b"
  else if (n =? 9)%nat then backslash ++ "t"
  else if (n =? 10)%nat then backslash ++ "n"
  else if (n =? 12)%nat then backslash ++ "f"
  else if (n =? 13)%nat then backslash ++ "r"
  else if (n =? 34)%nat then backslash ++ dq
  else if (n =? 92)%nat then backslash ++ backslash
  else if (n <? 32)%nat then backslash ++ "u00" ++ hex_digit (n / 16) ++ hex_digit (n mod 16)
  else String c "".

Fixpoint escape (s : string) : string :=
  match s with
  | EmptyString => ""
  | String c rest => escape_char c ++ escape rest
  end.

Definition quote (s : string) : string := dq ++ escape s ++ dq.

(** SerializeJSONProperty, [None] standing for [undefined]: an undefined
    array element is written [null], an undefined property is left out, and
    a number that is not finite is written [null]. *)
Fixpoint serialize (v : value) : option string :=
  match v with
  | VUndefined => None
  | VNull => Some "null"
  | VBool true => Some "true"
  | VBool false => Some "false"
  | VNum x => Some (if PrimFloat.is_finite x then number_to_string x else "null")
  | VStr s => Some (quote s)
  | VArr items =>
      Some ("[" ++ String.concat ","
                     (map (fun x => match serialize x with
                                    | Some s => s
                                    | None => "null"
                                    end) items) ++ "]")
  | VObj props =>
      Some ("{" ++ String.concat ","
                     (flat_map (fun kv => match serialize (snd kv) with
                                          | Some s => [quote (fst kv) ++ ":" ++ s]
                                          | None => []
                                          end) props) ++ "}")
  end.

(** [JSON.stringify(v)]. *)
Definition JSON_stringify (v : value) : value :=
  match serialize v with
  | Some s => VStr s
  | None => VUndefined
  end.

End Rendering.

End JS.
Import JS.

(** ** The handler's surroundings *)

(** The single message handed to the agent: [{ role, content }]. *)
Record MastraMessage : Type := { role : value; content : value }.

(** Modelled from the spec: the type of what [agent.generate] resolves to,
    which the framework declares and the repository does not.  The interface
    is [generate(conversation) -> {text, toolResults?: sequence}]; the handler
    reads the text with a fallback, so it is kept as a run-time value. *)
Record GenerateResult : Type := { text : value; toolResults : option (list value) }.

(** An agent, as far as the handler uses it: [generate] answers a
    conversation or fails with anything.  Its first argument is its memory,
    the conversations it was given before. *)
Record Agent : Type :=
  { generate : list (list MastraMessage) -> list MastraMessage -> outcome GenerateResult }.

(** Everything the handler obtains from outside during one request. *)
Record Env : Type :=
  { req_json : outcome value;                       (* await c.req.json() *)
    req_param_agentId : string;                     (* c.req.param("agentId") *)
    getAgent : string -> outcome (option Agent);    (* mastra.getAgent, None when falsy *)
    uuid_source : nat -> string;                    (* the n-th result of randomUUID() *)
    now_iso : string;                               (* new Date().toISOString() *)
    number_to_string : number -> string;            (* the engine's Number::toString *)
    type_error_message : type_error -> string }.    (* the engine's wording *)

Inductive log_line : Type :=
| LogWebhook (url : value)        (* console.log("Non-blocking request with webhook:", url) *)
| LogRouteError (error : exn).    (* console.error("A2A Agent Route Error:", error) *)

(** The state one run of the handler reads and writes: its local variable
    [requestId], the number of UUIDs drawn so far, the conversations the agent
    has been given, and the console. *)
Record State : Type :=
  { requestId : value;
    uuids_issued : nat;
    agent_calls : list (list MastraMessage);
    console : list log_line }.

(** What [c.json(body, status)] returns. *)
Record Response : Type := { status : Z; body : value }.

Definition c_json (b : value) (code : Z) : Response := {| status := code; body := b |}.

(** ** State and exceptions *)

Definition M (A : Type) : Type := State -> outcome A * State.

Definition ret {A} (a : A) : M A := fun st => (Ok a, st).

Definition bind {A B} (m : M A) (k : A -> M B) : M B :=
  fun st => match m st with
            | (Ok a, st') => k a st'
            | (Throw e, st') => (Throw e, st')
            end.

Definition lift {A} (o : outcome A) : M A := fun st => (o, st).

Definition try_catch {A} (m : M A) (handler : exn -> M A) : M A :=
  fun st => match m st with
            | (Ok a, st') => (Ok a, st')
            | (Throw e, st') => handler e st'
            end.

Definition obind {A B} (o : outcome A) (k : A -> outcome B) : outcome B :=
  match o with
  | Ok a => k a
  | Throw e => Throw e
  end.

Declare Scope js_scope.
Delimit Scope js_scope with js.
Notation "x <- m ;; k" := (bind m (fun x => k))
  (at level 61, m at next level, right associativity) : js_scope.
Notation "m ;; k" := (bind m (fun _ => k))
  (at level 61, right associativity) : js_scope.
Notation "'try' x <- o 'in' k" := (obind o (fun x => k))
  (at level 61, x name, o at next level, right associativity) : js_scope.
Open Scope js_scope.

Definition with_requestId (v : value) (st : State) : State :=
  {| requestId := v; uuids_issued := uuids_issued st;
     agent_calls := agent_calls st; console := console st |}.

Definition with_uuid_drawn (st : State) : State :=
  {| requestId := requestId st; uuids_issued := S (uuids_issued st);
     agent_calls := agent_calls st; console := console st |}.

Definition with_call (conversation : list MastraMessage) (st : State) : State :=
  {| requestId := requestId st; uuids_issued := uuids_issued st;
     agent_calls := agent_calls st ++ [conversation]; console := console st |}.

Definition with_log (l : log_line) (st : State) : State :=
  {| requestId := requestId st; uuids_issued := uuids_issued st;
     agent_calls := agent_calls st; console := console st ++ [l] |}.

Definition set_requestId (v : value) : M unit :=
  fun st => (Ok tt, with_requestId v st).

Definition get_requestId : M value := fun st => (Ok (requestId st), st).

Definition randomUUID (env : Env) : M value :=
  fun st => (Ok (VStr (uuid_source env (uuids_issued st))), with_uuid_drawn st).

Definition console_write (l : log_line) : M unit :=
  fun st => (Ok tt, with_log l st).

(** [await agent.generate(conversation)]: the agent sees its memory, and the
    conversation is added to it whether the call succeeds or fails. *)
Definition agent_generate (agent : Agent) (conversation : list MastraMessage) : M GenerateResult :=
  fun st => (generate agent (agent_calls st) conversation, with_call conversation st).

(** [a || randomUUID()]. *)
Definition or_randomUUID (env : Env) (a : value) : M value :=
  if truthy a then ret a else randomUUID env.

(** ** The handler *)

(** The callback of [message.parts.map] (lines 140-144). *)
Definition part_content (env : Env) (part : value) : outcome value :=
  try kind <- get_prop part "kind" in
  if is_string kind "text" then get_prop part "text"
  else if is_string kind "data" then
    try data <- get_prop part "data" in Ok (JSON_stringify (number_to_string env) data)
  else Ok (VStr "").

(** [xs.map(f)] for a callback that may throw. *)
Fixpoint array_map (f : value -> outcome value) (items : list value) : outcome (list value) :=
  match items with
  | [] => Ok []
  | x :: rest =>
      try y <- f x in
      try ys <- array_map f rest in
      Ok (y :: ys)
  end.

(** [parts.map(callback)]: only an array has a [map] to call. *)
Definition parts_map (env : Env) (parts : value) : outcome (list value) :=
  match parts with
  | VArr items => array_map (part_content env) items
  | _ => Throw (TypeError (NotAFunction "map"))
  end.

(** [mastraMessage] (lines 136-146). *)
Definition mastraMessage (env : Env) (message : value) : outcome MastraMessage :=
  try role_ <- get_prop message "role" in
  try parts <- get_prop message "parts" in
  try mapped <- parts_map env parts in
  try joined <- array_join (number_to_string env) lf mapped in
  Ok {| role := role_; content := or_else (VStr joined) (VStr "") |}.

(** The body of [response.toolResults.forEach] (lines 157-168), pushing one
    artifact per tool result. *)
Fixpoint push_artifacts (env : Env) (results : list value) (artifacts : list value)
  : M (list value) :=
  match results with
  | [] => ret artifacts
  | result :: rest =>
      artifactId <- randomUUID env ;;
      name <- lift (get_prop result "name") ;;
      push_artifacts env rest
        (artifacts ++
           [VObj [("artifactId", artifactId);
                  ("name", or_else name (VStr "ToolResult"));
                  ("parts", VArr [VObj [("kind", VStr "data"); ("data", result)]])]])
  end.

(** [artifacts] (lines 154-169). *)
Definition build_artifacts (env : Env) (response : GenerateResult) : M (list value) :=
  match toolResults response with
  | Some (r :: rs) => push_artifacts env (r :: rs) []
  | _ => ret []
  end.

(** The reply as a message part list: [[{ kind: "text", text: agentText }]]. *)
Definition text_parts (agentText : value) : value :=
  VArr [VObj [("kind", VStr "text"); ("text", agentText)]].

(** [history] (lines 172-192). *)
Definition build_history (env : Env) (message currentTaskId agentText responseMessageId : value)
  : M value :=
  role_ <- lift (get_prop message "role") ;;
  parts <- lift (get_prop message "parts") ;;
  given <- lift (get_prop message "messageId") ;;
  messageId <- or_randomUUID env given ;;
  ret (VArr [VObj [("kind", VStr "message");
                   ("role", role_);
                   ("parts", parts);
                   ("messageId", messageId);
                   ("taskId", currentTaskId)];
             VObj [("kind", VStr "message");
                   ("role", VStr "agent");
                   ("parts", text_parts agentText);
                   ("messageId", responseMessageId);
                   ("taskId", currentTaskId)]]).

(** [a2aResponse] (lines 195-220). *)
Definition a2aResponse (env : Env)
  (rid currentTaskId conversationContext responseMessageId agentText : value)
  (artifacts : list value) (history : value) : value :=
  VObj [("jsonrpc", VStr "2.0");
        ("id", rid);
        ("result",
          VObj [("id", currentTaskId);
                ("contextId", conversationContext);
                ("status",
                  VObj [("state", VStr "completed");
                        ("timestamp", VStr (now_iso env));
                        ("message",
                          VObj [("messageId", responseMessageId);
                                ("role", VStr "agent");
                                ("parts", text_parts agentText);
                                ("kind", VStr "message")])]);
                ("artifacts", VArr artifacts);
                ("history", history);
                ("kind", VStr "task")])].

(** The non-blocking stub (lines 224-234): it only logs the webhook URL. *)
Definition non_blocking_stub (configuration : value) : M unit :=
  if is_false (opt_prop configuration "blocking") then
    if truthy (opt_prop (opt_prop configuration "pushNotificationConfig") "url") then
      console_write (LogWebhook (opt_prop (opt_prop configuration "pushNotificationConfig") "url"))
    else ret tt
  else ret tt.

(** Lines 150-236: the response is assembled from the agent's answer. *)
Definition assemble (env : Env)
  (message configuration currentTaskId conversationContext : value)
  (response : GenerateResult) : M Response :=
  let agentText := or_else (text response) (VStr "") in
  responseMessageId <- randomUUID env ;;
  artifacts <- build_artifacts env response ;;
  history <- build_history env message currentTaskId agentText responseMessageId ;;
  rid <- get_requestId ;;
  let a2aResponse_ :=
    a2aResponse env rid currentTaskId conversationContext responseMessageId agentText
                artifacts history in
  non_blocking_stub configuration ;;
  ret (c_json a2aResponse_ 200).

(** Lines 132-236: what happens once the message has passed validation: the
    identifiers are settled, the message is translated, the agent is invoked
    and the response assembled. *)
Definition answer (env : Env) (agent : Agent) (message configuration : value) : M Response :=
  taskId <- lift (get_prop message "taskId") ;;
  currentTaskId <- or_randomUUID env taskId ;;
  contextId <- lift (get_prop message "contextId") ;;
  conversationContext <- or_randomUUID env contextId ;;
  mastraMessage_ <- lift (mastraMessage env message) ;;
  response <- agent_generate agent [mastraMessage_] ;;
  assemble env message configuration currentTaskId conversationContext response.

(** The [try] block (lines 46-236). *)
Definition try_block (env : Env) : M Response :=
  let agentId := req_param_agentId env in
  body_ <- lift (req_json env) ;;
  jsonrpc <- lift (get_prop body_ "jsonrpc") ;;
  id <- lift (get_prop body_ "id") ;;
  method <- lift (get_prop body_ "method") ;;
  params <- lift (get_prop body_ "params") ;;
  set_requestId id ;;
  rid <- get_requestId ;;
  if negb (is_string jsonrpc "2.0") || negb (truthy rid) then
    ret (c_json
           (VObj [("jsonrpc", VStr "2.0");
                  ("id", or_else rid VNull);
                  ("error",
                    VObj [("code", VNum (-32600));
                          ("message",
                            VStr ("Invalid Request: jsonrpc must be " ++ dq ++ "2.0" ++ dq
                                  ++ " and id is required"))])])
           400)
  else if negb (is_string method "message/send") then
    shown <- lift (to_string (number_to_string env) method) ;;
    rid <- get_requestId ;;
    ret (c_json
           (VObj [("jsonrpc", VStr "2.0");
                  ("id", rid);
                  ("error",
                    VObj [("code", VNum (-32601));
                          ("message",
                            VStr ("Invalid method: expected " ++ dq ++ "message/send" ++ dq
                                  ++ ", got " ++ dq ++ shown ++ dq))])])
           400)
  else
    found <- lift (getAgent env agentId) ;;
    match found with
    | None =>
        rid <- get_requestId ;;
        ret (c_json
               (VObj [("jsonrpc", VStr "2.0");
                      ("id", rid);
                      ("error",
                        VObj [("code", VNum (-32602));
                              ("message", VStr ("Agent '" ++ agentId ++ "' not found"))])])
               404)
    | Some agent =>
        let params' := or_else params (VObj []) in
        message <- lift (get_prop params' "message") ;;
        configuration <- lift (get_prop params' "configuration") ;;
        if negb (truthy message) || negb (typeof_object message) then
          rid <- get_requestId ;;
          ret (c_json
                 (VObj [("jsonrpc", VStr "2.0");
                        ("id", rid);
                        ("error",
                          VObj [("code", VNum (-32602));
                                ("message", VStr "Invalid params: message is required")])])
                 400)
        else
          kind <- lift (get_prop message "kind") ;;
          role_ <- lift (get_prop message "role") ;;
          parts <- lift (get_prop message "parts") ;;
          if negb (is_string kind "message") || negb (truthy role_) || negb (truthy parts)
          then
            rid <- get_requestId ;;
            ret (c_json
                   (VObj [("jsonrpc", VStr "2.0");
                          ("id", rid);
                          ("error",
                            VObj [("code", VNum (-32602));
                                  ("message",
                                    VStr ("Invalid message: must have kind " ++ dq
                                          ++ "message" ++ dq ++ ", role, and parts array"))])])
                   400)
          else answer env agent message configuration
    end.

(** [error.message] in the [catch] block. *)
Definition error_message (env : Env) (error : exn) : outcome value :=
  match error with
  | TypeError t => Ok (VStr (type_error_message env t))
  | ErrorObject m => Ok (VStr m)
  | Thrown v => get_prop v "message"
  end.

(** The [catch] block (lines 237-254). *)
Definition catch_block (env : Env) (error : exn) : M Response :=
  console_write (LogRouteError error) ;;
  rid <- get_requestId ;;
  details <- lift (error_message env error) ;;
  ret (c_json
         (VObj [("jsonrpc", VStr "2.0");
                ("id", rid);
                ("error",
                  VObj [("code", VNum (-32603));
                        ("message", VStr "Internal error");
                        ("data", VObj [("details", details)])])])
         500).

(** The handler (lines 43-255).  [Throw] as its result means the handler's
    promise rejects: the failure leaves the handler. *)
Definition a2aAgentRoute (env : Env) : M Response :=
  set_requestId VNull ;;
  try_catch (try_block env) (catch_block env).

(** ** The specification's vocabulary *)

(** What a request that passed validation consists of. *)
Record Request : Type :=
  { rq_agent : Agent; rq_id : value; rq_message : value; rq_configuration : value }.

(** The five ways validation turns a request down (section 4.1, steps 2-6). *)
Inductive rejection : Type :=
| InvalidRequest     (* jsonrpc is not "2.0", or id is missing *)
| MethodNotFound     (* method is not "message/send" *)
| AgentNotFound      (* the registry has no such agent *)
| MessageRequired    (* params.message is absent or no object *)
| InvalidMessage.    (* wrong kind, or no role, or no parts *)

Inductive verdict : Type :=
| Accepted (rq : Request)
| Rejected (why : rejection)
| Failed (e : exn).   (* the body could not be read, or the registry threw *)

(** The validation sequence as the specification lists it, the first failing
    check deciding; "missing" is read the way the handler tests it, as falsy. *)
Definition validate (env : Env) : verdict :=
  match req_json env with
  | Throw e => Failed e
  | Ok body_ =>
      if nullish body_ then Failed (TypeError (NullishAccess body_ "jsonrpc"))
      else if negb (is_string (opt_prop body_ "jsonrpc") "2.0")
              || negb (truthy (opt_prop body_ "id")) then Rejected InvalidRequest
      else if negb (is_string (opt_prop body_ "method") "message/send") then
        Rejected MethodNotFound
      else
        match getAgent env (req_param_agentId env) with
        | Throw e => Failed e
        | Ok None => Rejected AgentNotFound
        | Ok (Some agent) =>
            let params' := or_else (opt_prop body_ "params") (VObj []) in
            let message := opt_prop params' "message" in
            if negb (truthy message) || negb (typeof_object message) then
              Rejected MessageRequired
            else if negb (is_string (opt_prop message "kind") "message")
                    || negb (truthy (opt_prop message "role"))
                    || negb (truthy (opt_prop message "parts")) then
              Rejected InvalidMessage
            else
              Accepted {| rq_agent := agent;
                          rq_id := opt_prop body_ "id";
                          rq_message := message;
                          rq_configuration := opt_prop params' "configuration" |}
        end
  end.

Definition rejection_status (why : rejection) : Z :=
  match why with
  | AgentNotFound => 404
  | _ => 400
  end.

Definition rejection_code (why : rejection) : Z :=
  match why with
  | InvalidRequest => -32600
  | MethodNotFound => -32601
  | AgentNotFound | MessageRequired | InvalidMessage => -32602
  end.

(** Reading a response: [result], [error], a path of property names, and an
    array element. *)
Definition result_of (r : Response) : value := opt_prop (body r) "result".
Definition error_of (r : Response) : value := opt_prop (body r) "error".

Fixpoint at_path (v : value) (path : list string) : value :=
  match path with
  | [] => v
  | key :: rest => at_path (opt_prop v key) rest
  end.

Definition nth_item (i : nat) (v : value) : value :=
  match v with
  | VArr items => nth i items VUndefined
  | _ => VUndefined
  end.

(** A success is the response sent with status 200. *)
Definition successful (r : Response) : Prop := status r = 200%Z.

(** A UUID is fresh for a run when [randomUUID] produced it during that run. *)
Definition fresh_uuid (env : Env) (before after : State) (v : value) : Prop :=
  exists n, uuids_issued before <= n < uuids_issued after /\ v = VStr (uuid_source env n).

(** *** Parts and content *)

(** A message part as the data model types it: some value with properties,
    whose [text] is a string when its kind is "text". *)
Definition part_well_typed (part : value) : bool :=
  negb (nullish part)
  && (if is_string (opt_prop part "kind") "text"
      then match opt_prop part "text" with VStr _ => true | _ => false end
      else true).

(** A text as a string.  A text that is a string is itself; one that is not
    is converted the way [join] converts an array element (the empty string
    for null and undefined), which can fail. *)
Definition text_string (env : Env) (t : value) : option string :=
  match join_item (number_to_string env) t with
  | Ok s => Some s
  | Throw _ => None
  end.

(** The parts the translation can read: not null or undefined, and with a
    text that has a string form when the kind is "text". *)
Definition part_readable (env : Env) (part : value) : bool :=
  negb (nullish part)
  && (if is_string (opt_prop part "kind") "text"
      then match text_string env (opt_prop part "text") with
           | Some _ => true
           | None => false
           end
      else true).

(** What a part contributes to the content, in the specification's words:
    its text for a text part, the JSON serialization of its payload for a
    data part (nothing when there is no payload), the empty string for any
    other kind. *)
Definition part_contribution (env : Env) (part : value) : string :=
  if is_string (opt_prop part "kind") "text" then
    match text_string env (opt_prop part "text") with Some t => t | None => "" end
  else if is_string (opt_prop part "kind") "data" then
    match serialize (number_to_string env) (opt_prop part "data") with
    | Some s => s
    | None => ""
    end
  else "".

(** The contributions joined by a newline. *)
Definition joined_content (env : Env) (parts : list value) : string :=
  String.concat lf (map (part_contribution env) parts).

(** *** The success response in closed form *)

(** [v || randomUUID()] when [n] UUIDs have been drawn so far: the value
    obtained, and how many have been drawn afterwards. *)
Definition supplied_or (env : Env) (v : value) (n : nat) : value :=
  if truthy v then v else VStr (uuid_source env n).

Definition drawn_after (v : value) (n : nat) : nat :=
  if truthy v then n else S n.

(** The tool results of a response, none when the field is absent. *)
Definition tool_results (response : GenerateResult) : list value :=
  match toolResults response with
  | Some rs => rs
  | None => []
  end.

(** The artifact wrapping a tool result under a given id. *)
Definition artifact_of (id_and_result : value * value) : value :=
  VObj [("artifactId", fst id_and_result);
        ("name", or_else (opt_prop (snd id_and_result) "name") (VStr "ToolResult"));
        ("parts", VArr [VObj [("kind", VStr "data"); ("data", snd id_and_result)]])].

(** The artifacts for a sequence of tool results, ids taken from the [n]-th
    UUID on. *)
Fixpoint artifacts_from (env : Env) (n : nat) (results : list value) : list value :=
  match results with
  | [] => []
  | r :: rest => artifact_of (VStr (uuid_source env n), r) :: artifacts_from env (S n) rest
  end.

(** The two history entries. *)
Definition history_of (message currentTaskId agentText responseMessageId messageId : value)
  : value :=
  VArr [VObj [("kind", VStr "message");
              ("role", opt_prop message "role");
              ("parts", opt_prop message "parts");
              ("messageId", messageId);
              ("taskId", currentTaskId)];
        VObj [("kind", VStr "message");
              ("role", VStr "agent");
              ("parts", text_parts agentText);
              ("messageId", responseMessageId);
              ("taskId", currentTaskId)]].

(** The body of the success response, for an accepted request answered with
    [response] when [n0] UUIDs had been drawn before: UUIDs go, in this
    order, to the task id and the context id (when not supplied), to the
    reply's message id, to the artifacts, and to the inbound message's id
    (when not supplied). *)
Definition task_body (env : Env) (rq : Request) (n0 : nat) (response : GenerateResult)
  : value :=
  let message := rq_message rq in
  let n1 := drawn_after (opt_prop message "taskId") n0 in
  let n2 := drawn_after (opt_prop message "contextId") n1 in
  let n3 := S n2 + length (tool_results response) in
  let currentTaskId := supplied_or env (opt_prop message "taskId") n0 in
  let agentText := or_else (text response) (VStr "") in
  a2aResponse env (rq_id rq) currentTaskId
    (supplied_or env (opt_prop message "contextId") n1)
    (VStr (uuid_source env n2)) agentText
    (artifacts_from env (S n2) (tool_results response))
    (history_of message currentTaskId agentText (VStr (uuid_source env n2))
       (supplied_or env (opt_prop message "messageId") n3)).

(** How many UUIDs have been drawn once that response is complete. *)
Definition drawn_in_all (rq : Request) (n0 : nat) (response : GenerateResult) : nat :=
  let message := rq_message rq in
  let n1 := drawn_after (opt_prop message "taskId") n0 in
  let n2 := drawn_after (opt_prop message "contextId") n1 in
  let n3 := S n2 + length (tool_results response) in
  drawn_after (opt_prop message "messageId") n3.

(** *** Steps that leave the agent alone *)

(** A step that leaves the agent and [requestId] alone: it may draw UUIDs
    and write to the console, nothing else. *)
Definition quiet_step (st st' : State) : Prop :=
  agent_calls st' = agent_calls st
  /\ requestId st' = requestId st
  /\ uuids_issued st <= uuids_issued st'.

Definition quiet {A} (m : M A) : Prop := forall st, quiet_step st (snd (m st)).

(** ** Sample surroundings, used to run the handler on concrete requests *)

(** An integer in decimal digits. *)
Definition decimal (n : Z) : string := NilZero.string_of_int (Z.to_int n).

Definition sample_uuid (n : nat) : string := "uuid-" ++ decimal (Z.of_nat n).

(** The integer a number is, when it is one. *)
Definition integer_of (x : number) : option Z :=
  match FloatOps.Prim2SF x with
  | SpecFloat.S754_zero _ => Some 0%Z
  | SpecFloat.S754_finite s m e =>
      let magnitude :=
        if (0 <=? e)%Z then Some (Zpos m * 2 ^ e)%Z
        else if (Zpos m mod 2 ^ (- e) =? 0)%Z then Some (Zpos m / 2 ^ (- e))%Z
        else None in
      option_map (fun k => if s then (- k)%Z else k) magnitude
  | _ => None
  end.

(** A sample engine's Number::toString.  It is the real one on NaN, the
    infinities, the zeros and the safe integers, which the examples stay
    within; for every other number it stands in with a question mark. *)
Definition sample_number_to_string (x : number) : string :=
  if PrimFloat.is_nan x then "NaN"
  else if PrimFloat.is_infinity x then
    (if PrimFloat.ltb x PrimFloat.zero then "-Infinity" else "Infinity")
  else match integer_of x with
       | Some k => if (Z.abs k <? 2 ^ 53)%Z then decimal k else "?"
       | None => "?"
       end.

Definition sample_agent (reply : outcome GenerateResult) : Agent :=
  {| generate := fun _ _ => reply |}.

Definition sample_env (request : outcome value) (reply : outcome GenerateResult) : Env :=
  {| req_json := request;
     req_param_agentId := "plannerAgent";
     getAgent := fun id => Ok (if id =? "plannerAgent" then Some (sample_agent reply) else None);
     uuid_source := sample_uuid;
     now_iso := "2025-11-03T10:00:00.000Z";
     number_to_string := sample_number_to_string;
     type_error_message := fun _ => "TypeError" |}.

Definition initial_state : State :=
  {| requestId := VNull; uuids_issued := 0; agent_calls := []; console := [] |}.

(** [{ jsonrpc: "2.0", id: "1", method: "message/send", params: { message } }]. *)
Definition sample_request (message : value) : value :=
  VObj [("jsonrpc", VStr "2.0");
        ("id", VStr "1");
        ("method", VStr "message/send");
        ("params", VObj [("message", message)])].

(** [{ kind: "message", role: "user", parts, ...extra }]. *)
Definition sample_message (parts : value) (extra : list (string * value)) : value :=
  VObj ([("kind", VStr "message"); ("role", VStr "user"); ("parts", parts)] ++ extra).

Definition text_part (t : string) : value := VObj [("kind", VStr "text"); ("text", VStr t)].
Definition data_part (d : value) : value := VObj [("kind", VStr "data"); ("data", d)].

(** [{ kind: "message", role: "user", parts: [{ kind: "text", text: "hi" }],
    ...extra }]. *)
Definition hello (extra : list (string * value)) : value :=
  sample_message (VArr [text_part "hi"]) extra.

(** A reply with text only, and a reply that carries tool results. *)
Definition plain_reply (t : string) : outcome GenerateResult :=
  Ok {| text := VStr t; toolResults := None |}.

Definition tool_reply (t : string) (results : list value) : outcome GenerateResult :=
  Ok {| text := VStr t; toolResults := Some results |}.

(** The environment in which [sample_request message] arrives and the agent
    answers [reply], and what validation makes of the request. *)
Definition serve (message : value) (reply : outcome GenerateResult) : Env :=
  sample_env (Ok (sample_request message)) reply.

Definition sample_accepted (message : value) (reply : outcome GenerateResult) : Request :=
  {| rq_agent := sample_agent reply;
     rq_id := VStr "1";
     rq_message := message;
     rq_configuration := VUndefined |}.

(** ** More vocabulary: error responses, the console, all the identifiers *)

(** The request's id, as far as the body gives one. *)
Definition request_id (env : Env) : value :=
  match req_json env with
  | Ok body_ => opt_prop body_ "id"
  | Throw _ => VUndefined
  end.

(** [{ jsonrpc: "2.0", id, error: { code, message } }], the shape of the four
    validation errors. *)
Definition error_response (id : value) (code : Z) (message : string) : value :=
  VObj [("jsonrpc", VStr "2.0");
        ("id", id);
        ("error", VObj [("code", VNum code); ("message", VStr message)])].

(** [{ jsonrpc: "2.0", id, error: { code: -32603, message: "Internal error",
    data: { details } } }], the shape of what the [catch] block answers. *)
Definition internal_error_response (id details : value) : value :=
  VObj [("jsonrpc", VStr "2.0");
        ("id", id);
        ("error",
          VObj [("code", VNum (-32603));
                ("message", VStr "Internal error");
                ("data", VObj [("details", details)])])].

(** The errors off which [error.message] can be read: all but a thrown null
    or undefined. *)
Definition readable_error (e : exn) : bool :=
  match e with
  | Thrown v => negb (nullish v)
  | _ => true
  end.

(** What a configuration makes the handler write to the console. *)
Definition webhook_log (configuration : value) : list log_line :=
  if is_false (opt_prop configuration "blocking")
     && truthy (opt_prop (opt_prop configuration "pushNotificationConfig") "url")
  then [LogWebhook (opt_prop (opt_prop configuration "pushNotificationConfig") "url")]
  else [].

(** Whether the parts of a message can be translated. *)
Definition parts_readable (env : Env) (parts : value) : bool :=
  match parts with
  | VArr items => forallb (part_readable env) items
  | _ => false
  end.

(** The artifact ids of a response's artifacts. *)
Definition artifact_ids (artifacts : value) : list value :=
  match artifacts with
  | VArr items => map (fun a => opt_prop a "artifactId") items
  | _ => []
  end.

(** The identifiers of a success response that [randomUUID] made, in the
    order of the response: the task id and the context id unless the message
    supplied them, the reply's message id, the artifact ids, and the inbound
    message's id unless supplied. *)
Definition generated_ids (message : value) (resp : Response) : list value :=
  ((if truthy (opt_prop message "taskId") then []
    else [at_path (body resp) ["result"; "id"]])
   ++ (if truthy (opt_prop message "contextId") then []
       else [at_path (body resp) ["result"; "contextId"]])
   ++ [at_path (body resp) ["result"; "status"; "message"; "messageId"]]
   ++ artifact_ids (at_path (body resp) ["result"; "artifacts"])
   ++ (if truthy (opt_prop message "messageId") then []
       else [opt_prop (nth_item 0 (at_path (body resp) ["result"; "history"]))
                      "messageId"]))%list.

(** The state once the task id and the context id are settled. *)
Definition ids_settled (message : value) (st : State) : State :=
  let st1 := if truthy (opt_prop message "taskId") then st else with_uuid_drawn st in
  if truthy (opt_prop message "contextId") then st1 else with_uuid_drawn st1.

(** The sample surroundings, addressed under another agent id. *)
Definition sample_env_at (agentId : string) (request : outcome value)
  (reply : outcome GenerateResult) : Env :=
  {| req_json := request;
     req_param_agentId := agentId;
     getAgent := getAgent (sample_env request reply);
     uuid_source := sample_uuid;
     now_iso := now_iso (sample_env request reply);
     number_to_string := sample_number_to_string;
     type_error_message := type_error_message (sample_env request reply) |}.

(** * Properties *)

(** ** The built-ins *)

Lemma get_prop_ok (v : value) (key : string) :
  nullish v = false -> get_prop v key = Ok (opt_prop v key).
Proof. unfold get_prop. intros ->. reflexivity. Qed.

Lemma truthy_not_nullish (v : value) : truthy v = true -> nullish v = false.
Proof. destruct v; simpl; congruence. Qed.

Lemma get_prop_truthy (v : value) (key : string) :
  truthy v = true -> get_prop v key = Ok (opt_prop v key).
Proof. intros H. apply get_prop_ok, truthy_not_nullish, H. Qed.

Lemma get_prop_inv (v : value) (key : string) (x : value) :
  get_prop v key = Ok x -> nullish v = false /\ x = opt_prop v key.
Proof.
  unfold get_prop. destruct (nullish v); [discriminate|].
  intros [= <-]. split; reflexivity.
Qed.

Lemma or_else_object_truthy (v : value) : truthy (or_else v (VObj [])) = true.
Proof. unfold or_else. destruct (truthy v) eqn:H; [exact H | reflexivity]. Qed.

Lemma to_string_array (show : number -> string) (items : list value) :
  to_string show (VArr items) = array_join show "," items.
Proof.
  unfold array_join. simpl.
  induction items as [|x rest IH]; [reflexivity|].
  unfold join_items; fold join_items. unfold join_item.
  destruct (if nullish x then Ok "" else to_string show x); reflexivity.
Qed.

Example integer_literals_exact :
  map integer_of [number_of_Z 0; number_of_Z 7; number_of_Z (-32603);
                  number_of_Z (2 ^ 53 - 1)]
  = [Some 0; Some 7; Some (-32603); Some (2 ^ 53 - 1)]%Z.
Proof. reflexivity. Qed.

Example truthy_numbers :
  map truthy [VNum 0; VNum 7; VNum (-1);
              VNum (PrimFloat.opp PrimFloat.zero); VNum PrimFloat.nan;
              VNum PrimFloat.infinity;
              VNum (PrimFloat.div PrimFloat.one PrimFloat.two)]
  = [false; true; true; false; false; true; true].
Proof. reflexivity. Qed.

Example sample_number_to_string_safe :
  map sample_number_to_string
      [number_of_Z 42; number_of_Z (-7); PrimFloat.opp PrimFloat.zero;
       PrimFloat.nan; PrimFloat.neg_infinity]
  = ["42"; "-7"; "0"; "NaN"; "-Infinity"].
Proof. reflexivity. Qed.

Example to_string_nested_array :
  to_string sample_number_to_string (VArr [VNum 1; VNull; VArr [VStr "a"; VStr "b"]])
  = Ok "1,,a,b".
Proof. reflexivity. Qed.

Example to_string_own_toString (show : number -> string) :
  to_string show (VObj [("toString", VNum 1)]) = Throw (TypeError NoPrimitive).
Proof. reflexivity. Qed.

(** Numbers the engine renders in exponent form or with a fraction are
    written the way the engine renders them: nothing is assumed of their
    digits. *)
Example stringify_any_number (show : number -> string) (x : number) :
  JSON_stringify show (VObj [("x", VNum x)])
  = VStr ("{" ++ dq ++ "x" ++ dq ++ ":"
          ++ (if PrimFloat.is_finite x then show x else "null") ++ "}").
Proof. reflexivity. Qed.

Example stringify_object :
  JSON_stringify sample_number_to_string
    (VObj [("x", VNum 1); ("u", VUndefined); ("s", VStr ("q" ++ dq))])
  = VStr ("{" ++ dq ++ "x" ++ dq ++ ":1," ++ dq ++ "s" ++ dq ++ ":"
          ++ dq ++ "q" ++ backslash ++ dq ++ dq ++ "}").
Proof. reflexivity. Qed.

Example stringify_array_hole (show : number -> string) :
  JSON_stringify show (VArr [VUndefined; VBool true; VNum PrimFloat.nan])
  = VStr "[null,true,null]".
Proof. reflexivity. Qed.

(** ** Running the monad *)

Lemma bind_ok_inv {A B} (m : M A) (k : A -> M B) (st st2 : State) (b : B) :
  bind m k st = (Ok b, st2) ->
  exists a st1, m st = (Ok a, st1) /\ k a st1 = (Ok b, st2).
Proof.
  unfold bind. destruct (m st) as [[a|e] st1]; [|discriminate].
  intros H. exists a, st1. split; [reflexivity | exact H].
Qed.

Lemma lift_ok_inv {A} (o : outcome A) (st st1 : State) (a : A) :
  lift o st = (Ok a, st1) -> o = Ok a /\ st1 = st.
Proof. unfold lift. intros [= -> ->]. split; reflexivity. Qed.

(** The steps of the handler that are quiet: all but the call of the agent
    and the assignment to [requestId]. *)
Create HintDb quiet.

Section Quiet.

Variable env : Env.

Lemma quiet_step_refl (st : State) : quiet_step st st.
Proof. unfold quiet_step. auto. Qed.

Lemma quiet_step_trans (a b c : State) :
  quiet_step a b -> quiet_step b c -> quiet_step a c.
Proof.
  unfold quiet_step. intros (H1 & H2 & H3) (H4 & H5 & H6).
  repeat split; [congruence | congruence | lia].
Qed.

Lemma quiet_ret {A} (a : A) : quiet (ret a).
Proof. intros st. apply quiet_step_refl. Qed.

Lemma quiet_lift {A} (o : outcome A) : quiet (lift o).
Proof. intros st. apply quiet_step_refl. Qed.

Lemma quiet_bind {A B} (m : M A) (k : A -> M B) :
  quiet m -> (forall a, quiet (k a)) -> quiet (bind m k).
Proof.
  intros Hm Hk st. unfold bind.
  specialize (Hm st). destruct (m st) as [[a|e] st1]; simpl in *; [|exact Hm].
  eapply quiet_step_trans; [exact Hm | apply Hk].
Qed.

Lemma quiet_get_requestId : quiet get_requestId.
Proof. intros st. apply quiet_step_refl. Qed.

Lemma quiet_randomUUID : quiet (randomUUID env).
Proof. intros st. unfold quiet_step. simpl. auto. Qed.

Lemma quiet_or_randomUUID (v : value) : quiet (or_randomUUID env v).
Proof.
  unfold or_randomUUID. destruct (truthy v); [apply quiet_ret | apply quiet_randomUUID].
Qed.

Lemma quiet_console_write (l : log_line) : quiet (console_write l).
Proof. intros st. unfold quiet_step. simpl. auto. Qed.

Hint Resolve quiet_ret quiet_lift quiet_get_requestId quiet_randomUUID
  quiet_or_randomUUID quiet_console_write : quiet.

Ltac quiet_chain :=
  repeat first [ apply quiet_bind; [| intros ?] | solve [auto with quiet] ].

Lemma quiet_push_artifacts (results acc : list value) :
  quiet (push_artifacts env results acc).
Proof.
  revert acc. induction results as [|r rest IH]; intros acc; simpl.
  - apply quiet_ret.
  - quiet_chain.
Qed.

Lemma quiet_build_artifacts (response : GenerateResult) :
  quiet (build_artifacts env response).
Proof.
  unfold build_artifacts. destruct (toolResults response) as [[|r rs]|];
    auto using quiet_push_artifacts with quiet.
Qed.

Lemma quiet_build_history (message tid txt rmid : value) :
  quiet (build_history env message tid txt rmid).
Proof. unfold build_history. quiet_chain. Qed.

Lemma quiet_non_blocking_stub (configuration : value) :
  quiet (non_blocking_stub configuration).
Proof.
  unfold non_blocking_stub.
  destruct (is_false _); [destruct (truthy _)|]; auto with quiet.
Qed.

Lemma quiet_catch_block (error : exn) : quiet (catch_block env error).
Proof. unfold catch_block. quiet_chain. Qed.

Hint Resolve quiet_build_artifacts quiet_build_history
  quiet_non_blocking_stub quiet_catch_block : quiet.

Lemma quiet_assemble (message cfg tid cid : value) (response : GenerateResult) :
  quiet (assemble env message cfg tid cid response).
Proof. unfold assemble. quiet_chain. Qed.

End Quiet.

(** ** Validation decides how the handler goes on *)

(** An accepted request is answered, inside the handler's [try]. *)
Lemma route_accepted (env : Env) (rq : Request) (st : State) :
  validate env = Accepted rq ->
  a2aAgentRoute env st
  = try_catch (answer env (rq_agent rq) (rq_message rq) (rq_configuration rq))
              (catch_block env) (with_requestId (rq_id rq) st).
Proof.
  unfold validate. intros H.
  destruct (req_json env) as [body_|e] eqn:Hbody; [|discriminate].
  destruct (nullish body_) eqn:Hnull; [discriminate|].
  destruct (negb (is_string (opt_prop body_ "jsonrpc") "2.0")
            || negb (truthy (opt_prop body_ "id"))) eqn:Henv; [discriminate|].
  destruct (negb (is_string (opt_prop body_ "method") "message/send")) eqn:Hmeth;
    [discriminate|].
  destruct (getAgent env (req_param_agentId env)) as [[agent|]|e] eqn:Hagent;
    try discriminate.
  cbv zeta in H.
  pose proof (or_else_object_truthy (opt_prop body_ "params")) as Hparams.
  set (params' := or_else (opt_prop body_ "params") (VObj [])) in *.
  destruct (negb (truthy (opt_prop params' "message"))
            || negb (typeof_object (opt_prop params' "message"))) eqn:Hmsg;
    [discriminate|].
  destruct (negb (is_string (opt_prop (opt_prop params' "message") "kind") "message")
            || negb (truthy (opt_prop (opt_prop params' "message") "role"))
            || negb (truthy (opt_prop (opt_prop params' "message") "parts"))) eqn:Hshape;
    [discriminate|].
  injection H as <-. simpl.
  assert (Hm : truthy (opt_prop params' "message") = true).
  { apply orb_false_elim in Hmsg. destruct Hmsg as [Hm _].
    apply negb_false_iff in Hm. exact Hm. }
  unfold a2aAgentRoute, try_block, try_catch, bind, lift, ret, set_requestId,
    get_requestId; simpl.
  rewrite Hbody. rewrite !(get_prop_ok _ _ Hnull). simpl.
  rewrite Henv, Hmeth, Hagent.
  fold params'. rewrite !(get_prop_truthy _ _ Hparams).
  rewrite Hmsg. rewrite !(get_prop_truthy _ _ Hm). rewrite Hshape.
  reflexivity.
Qed.

(** Whatever the [catch] block answers, it answers with status 500, error
    code -32603, the [requestId] of the moment and [error.message] as
    details. *)
Lemma catch_block_ok (env : Env) (error : exn) (st st' : State) (resp : Response) :
  catch_block env error st = (Ok resp, st') ->
  exists details,
    error_message env error = Ok details
    /\ resp = c_json
                (VObj [("jsonrpc", VStr "2.0");
                       ("id", requestId st);
                       ("error",
                         VObj [("code", VNum (-32603));
                               ("message", VStr "Internal error");
                               ("data", VObj [("details", details)])])])
                500
    /\ st' = with_log (LogRouteError error) st.
Proof.
  unfold catch_block, bind, console_write, get_requestId, lift, ret. simpl.
  destruct (error_message env error) as [details|e]; [|discriminate].
  intros [= <- <-]. exists details. auto.
Qed.

Lemma catch_block_status (env : Env) (error : exn) (st st' : State) (resp : Response) :
  catch_block env error st = (Ok resp, st') -> status resp = 500%Z.
Proof.
  intros H. apply catch_block_ok in H. destruct H as (d & _ & -> & _). reflexivity.
Qed.

Lemma catch_block_state (env : Env) (error : exn) (st : State) :
  snd (catch_block env error st) = with_log (LogRouteError error) st.
Proof.
  unfold catch_block, bind, console_write, get_requestId, lift, ret. simpl.
  destruct (error_message env error); reflexivity.
Qed.

(** A failure before validation is over goes to the [catch] block, with
    [requestId] still null or already the request's id. *)
Lemma route_failed (env : Env) (e : exn) (st : State) :
  validate env = Failed e ->
  exists rid, a2aAgentRoute env st = catch_block env e (with_requestId rid st).
Proof.
  unfold validate. intros H.
  unfold a2aAgentRoute, try_block, try_catch, bind, lift, ret, set_requestId,
    get_requestId; simpl.
  destruct (req_json env) as [body_|e0] eqn:Hbody.
  2:{ injection H as <-. exists VNull. reflexivity. }
  destruct (nullish body_) eqn:Hnull.
  { injection H as <-. exists VNull. unfold get_prop. rewrite Hnull. reflexivity. }
  rewrite !(get_prop_ok _ _ Hnull). simpl.
  destruct (negb (is_string (opt_prop body_ "jsonrpc") "2.0")
            || negb (truthy (opt_prop body_ "id"))) eqn:Henv; [discriminate|].
  destruct (negb (is_string (opt_prop body_ "method") "message/send")) eqn:Hmeth;
    [discriminate|].
  destruct (getAgent env (req_param_agentId env)) as [[agent|]|e0] eqn:Hagent;
    try discriminate.
  - cbv zeta in H.
    destruct (negb (truthy _) || negb (typeof_object _)); [discriminate|].
    destruct (negb (is_string _ "message") || _ || _); discriminate.
  - injection H as <-. exists (opt_prop body_ "id"). reflexivity.
Qed.

(** Such a failure comes before any UUID is drawn or any agent invoked. *)
Lemma failed_before_agent (env : Env) (e : exn) (st : State) :
  validate env = Failed e ->
  agent_calls (snd (a2aAgentRoute env st)) = agent_calls st
  /\ uuids_issued (snd (a2aAgentRoute env st)) = uuids_issued st.
Proof.
  intros Hv. destruct (route_failed env e st Hv) as (rid & ->).
  rewrite catch_block_state. split; reflexivity.
Qed.

(** Induction on values that reaches into arrays. *)
Lemma value_array_ind (P : value -> Prop) :
  P VUndefined -> P VNull -> (forall b, P (VBool b)) -> (forall n, P (VNum n)) ->
  (forall s, P (VStr s)) ->
  (forall items, Forall P items -> P (VArr items)) ->
  (forall props, P (VObj props)) ->
  forall v, P v.
Proof.
  intros Hu Hn Hb Hz Hs Ha Ho.
  fix IH 1.
  intros [| |b|n|s|items|props];
    [exact Hu | exact Hn | apply Hb | apply Hz | apply Hs | | apply Ho].
  apply Ha. induction items as [|x rest IHitems]; constructor; [apply IH | exact IHitems].
Qed.

(** ToString fails in one way only. *)
Lemma to_string_throws (show : number -> string) (v : value) (e : exn) :
  to_string show v = Throw e -> e = TypeError NoPrimitive.
Proof.
  revert e. induction v as [| |b|n|s|items IH|props] using value_array_ind; intros e;
    try discriminate.
  - destruct b; discriminate.
  - rewrite to_string_array. unfold array_join.
    destruct (join_items show items) as [ss|e0] eqn:Hj; [discriminate|].
    intros [= <-]. clear -IH Hj. revert e0 Hj.
    induction IH as [|x rest Hx _ IHrest]; intros e0; simpl; [discriminate|].
    unfold join_item. destruct (nullish x).
    + destruct (join_items show rest) as [ss|e1]; [discriminate|].
      intros [= <-]. apply IHrest. reflexivity.
    + destruct (to_string show x) as [sx|e1] eqn:Hx'.
      * destruct (join_items show rest) as [ss|e2]; [discriminate|].
        intros [= <-]. apply IHrest. reflexivity.
      * intros [= <-]. apply Hx. reflexivity.
  - simpl. destruct (has_key "toString" props); [|discriminate].
    intros [= <-]. reflexivity.
Qed.

(** A rejected request is answered on the spot: with the status and the
    error code of the rejection and no result, and without any UUID drawn,
    any agent invoked or anything logged.  The one exception is a method
    that cannot even be shown in the error message, which ends in the
    [catch] block with status 500. *)
Lemma route_rejected (env : Env) (why : rejection) (st : State) :
  validate env = Rejected why ->
  exists resp st',
    a2aAgentRoute env st = (Ok resp, st')
    /\ agent_calls st' = agent_calls st
    /\ uuids_issued st' = uuids_issued st
    /\ ((status resp = rejection_status why
         /\ at_path (body resp) ["error"; "code"] = VNum (rejection_code why)
         /\ result_of resp = VUndefined
         /\ console st' = console st)
        \/ (why = MethodNotFound
            /\ status resp = 500%Z
            /\ at_path (body resp) ["error"; "code"] = VNum (-32603)
            /\ result_of resp = VUndefined)).
Proof.
  unfold validate. intros H.
  unfold a2aAgentRoute, try_block, try_catch, bind, lift, ret, set_requestId,
    get_requestId; simpl.
  destruct (req_json env) as [body_|e0] eqn:Hbody; [|discriminate].
  destruct (nullish body_) eqn:Hnull; [discriminate|].
  rewrite !(get_prop_ok _ _ Hnull). simpl.
  destruct (negb (is_string (opt_prop body_ "jsonrpc") "2.0")
            || negb (truthy (opt_prop body_ "id"))) eqn:Henv.
  { injection H as <-. eexists _, _. repeat split. left. repeat split. }
  destruct (negb (is_string (opt_prop body_ "method") "message/send")) eqn:Hmeth.
  { injection H as <-.
    destruct (to_string (number_to_string env) (opt_prop body_ "method")) as [shown|e] eqn:Hshow.
    - eexists _, _. repeat split. left. repeat split.
    - apply to_string_throws in Hshow. subst e.
      eexists _, _. repeat split. right. repeat split. }
  destruct (getAgent env (req_param_agentId env)) as [[agent|]|e0] eqn:Hagent;
    try discriminate.
  2:{ injection H as <-. eexists _, _. repeat split. left. repeat split. }
  cbv zeta in H.
  pose proof (or_else_object_truthy (opt_prop body_ "params")) as Hparams.
  set (params' := or_else (opt_prop body_ "params") (VObj [])) in *.
  rewrite !(get_prop_truthy _ _ Hparams).
  destruct (negb (truthy (opt_prop params' "message"))
            || negb (typeof_object (opt_prop params' "message"))) eqn:Hmsg.
  { injection H as <-. eexists _, _. repeat split. left. repeat split. }
  assert (Hm : truthy (opt_prop params' "message") = true).
  { apply orb_false_elim in Hmsg. destruct Hmsg as [Hm _].
    apply negb_false_iff in Hm. exact Hm. }
  rewrite !(get_prop_truthy _ _ Hm).
  destruct (negb (is_string (opt_prop (opt_prop params' "message") "kind") "message")
            || negb (truthy (opt_prop (opt_prop params' "message") "role"))
            || negb (truthy (opt_prop (opt_prop params' "message") "parts"))) eqn:Hshape;
    [|discriminate].
  injection H as <-. eexists _, _. repeat split. left. repeat split.
Qed.

(** ** Assembling the response *)

Lemma or_randomUUID_run (env : Env) (v : value) (st : State) :
  or_randomUUID env v st
  = (Ok (supplied_or env v (uuids_issued st)),
     if truthy v then st else with_uuid_drawn st).
Proof.
  unfold or_randomUUID, supplied_or. destruct (truthy v); reflexivity.
Qed.

Lemma push_artifacts_ok (env : Env) (results acc arts : list value) (st st' : State) :
  push_artifacts env results acc st = (Ok arts, st') ->
  arts = (acc ++ artifacts_from env (uuids_issued st) results)%list
  /\ uuids_issued st' = uuids_issued st + length results
  /\ requestId st' = requestId st
  /\ console st' = console st
  /\ Forall (fun r => nullish r = false) results.
Proof.
  revert acc st. induction results as [|r rest IH]; intros acc st; simpl.
  - unfold ret. intros [= <- <-]. rewrite app_nil_r. auto with arith.
  - unfold bind, randomUUID, lift. simpl.
    destruct (get_prop r "name") as [name|e] eqn:Hname; [|discriminate].
    apply get_prop_inv in Hname. destruct Hname as [Hnull ->].
    intros H. apply IH in H. simpl in H.
    destruct H as (-> & Hn & Hr & Hc & Hall).
    rewrite <- app_assoc. simpl.
    repeat split; auto. lia.
Qed.

Lemma build_artifacts_ok (env : Env) (response : GenerateResult) (arts : list value)
  (st st' : State) :
  build_artifacts env response st = (Ok arts, st') ->
  arts = artifacts_from env (uuids_issued st) (tool_results response)
  /\ uuids_issued st' = uuids_issued st + length (tool_results response)
  /\ requestId st' = requestId st
  /\ console st' = console st
  /\ Forall (fun r => nullish r = false) (tool_results response).
Proof.
  unfold build_artifacts, tool_results.
  destruct (toolResults response) as [[|r rs]|].
  - unfold ret. intros [= <- <-]. simpl. auto with arith.
  - intros H. apply push_artifacts_ok in H. exact H.
  - unfold ret. intros [= <- <-]. simpl. auto with arith.
Qed.

Lemma non_blocking_stub_run (configuration : value) (st : State) :
  exists st', non_blocking_stub configuration st = (Ok tt, st')
              /\ uuids_issued st' = uuids_issued st.
Proof.
  unfold non_blocking_stub.
  destruct (is_false _); [destruct (truthy _)|]; eexists; split; reflexivity.
Qed.

Lemma assemble_ok (env : Env) (message cfg tid cid : value) (response : GenerateResult)
  (st st' : State) (resp : Response) :
  truthy message = true ->
  assemble env message cfg tid cid response st = (Ok resp, st') ->
  let n := uuids_issued st in
  let n3 := S n + length (tool_results response) in
  let agentText := or_else (text response) (VStr "") in
  resp = c_json
           (a2aResponse env (requestId st) tid cid (VStr (uuid_source env n)) agentText
              (artifacts_from env (S n) (tool_results response))
              (history_of message tid agentText (VStr (uuid_source env n))
                 (supplied_or env (opt_prop message "messageId") n3)))
           200
  /\ uuids_issued st' = drawn_after (opt_prop message "messageId") n3
  /\ Forall (fun r => nullish r = false) (tool_results response).
Proof.
  intros Hm H. unfold assemble in H.
  apply bind_ok_inv in H. destruct H as (rmid & st1 & H1 & H).
  unfold randomUUID in H1. injection H1 as <- <-.
  apply bind_ok_inv in H. destruct H as (arts & st2 & H2 & H).
  apply build_artifacts_ok in H2. simpl in H2.
  destruct H2 as (-> & Hn2 & Hr2 & Hc2 & Hall).
  apply bind_ok_inv in H. destruct H as (history & st3 & H3 & H).
  unfold build_history in H3. rewrite !(get_prop_truthy _ _ Hm) in H3.
  unfold bind at 1 2 3 in H3. unfold lift in H3.
  unfold bind in H3. rewrite or_randomUUID_run in H3. unfold ret in H3.
  injection H3 as <- <-.
  apply bind_ok_inv in H. destruct H as (rid & st4 & H4 & H).
  unfold get_requestId in H4. injection H4 as <- <-.
  apply bind_ok_inv in H. destruct H as ([] & st5 & H5 & H).
  unfold ret in H. injection H as <- <-.
  destruct (non_blocking_stub_run cfg
              (if truthy (opt_prop message "messageId") then st2 else with_uuid_drawn st2))
    as (st6 & Hrun & Hn6).
  rewrite Hrun in H5. injection H5 as <-.
  assert (Hrid : requestId (if truthy (opt_prop message "messageId")
                             then st2 else with_uuid_drawn st2) = requestId st).
  { destruct (truthy (opt_prop message "messageId")); simpl; exact Hr2. }
  cbv zeta. rewrite Hrid, Hn2. simpl.
  repeat split.
  - rewrite Hn6. unfold drawn_after.
    destruct (truthy (opt_prop message "messageId")); simpl; lia.
  - exact Hall.
Qed.

(** ** The shape of every success *)

Lemma answer_ok (env : Env) (rq : Request) (st st' : State) (resp : Response) :
  truthy (rq_message rq) = true ->
  answer env (rq_agent rq) (rq_message rq) (rq_configuration rq) st = (Ok resp, st') ->
  exists mm response,
    mastraMessage env (rq_message rq) = Ok mm
    /\ generate (rq_agent rq) (agent_calls st) [mm] = Ok response
    /\ Forall (fun r => nullish r = false) (tool_results response)
    /\ resp = c_json (task_body env {| rq_agent := rq_agent rq; rq_id := requestId st;
                                       rq_message := rq_message rq;
                                       rq_configuration := rq_configuration rq |}
                                (uuids_issued st) response) 200
    /\ uuids_issued st' = drawn_in_all rq (uuids_issued st) response
    /\ agent_calls st' = (agent_calls st ++ [[mm]])%list.
Proof.
  intros Hm H. unfold answer in H.
  rewrite !(get_prop_truthy _ _ Hm) in H.
  unfold bind at 1 2 3 4 in H. unfold lift at 1 2 in H.
  rewrite !or_randomUUID_run in H.
  set (taskId := opt_prop (rq_message rq) "taskId") in *.
  set (contextId := opt_prop (rq_message rq) "contextId") in *.
  set (st1 := if truthy taskId then st else with_uuid_drawn st) in *.
  set (st2 := if truthy contextId then st1 else with_uuid_drawn st1) in *.
  assert (H1 : uuids_issued st1 = drawn_after taskId (uuids_issued st)
               /\ requestId st1 = requestId st /\ agent_calls st1 = agent_calls st).
  { unfold st1, drawn_after. destruct (truthy taskId); auto. }
  assert (H2 : uuids_issued st2 = drawn_after contextId (uuids_issued st1)
               /\ requestId st2 = requestId st1 /\ agent_calls st2 = agent_calls st1).
  { unfold st2, drawn_after. destruct (truthy contextId); auto. }
  destruct H1 as (Hn1 & Hr1 & Hc1). destruct H2 as (Hn2 & Hr2 & Hc2).
  apply bind_ok_inv in H. destruct H as (mm & st3 & H3 & H).
  apply lift_ok_inv in H3. destruct H3 as [Hmm ->].
  apply bind_ok_inv in H. destruct H as (response & st4 & H4 & H).
  unfold agent_generate in H4. injection H4 as Hgen <-.
  pose proof (quiet_assemble env (rq_message rq) (rq_configuration rq)
                (supplied_or env taskId (uuids_issued st))
                (supplied_or env contextId (uuids_issued st1)) response
                (with_call [mm] st2)) as Hq.
  rewrite H in Hq. destruct Hq as (Hcalls & _ & _). simpl in Hcalls.
  apply (assemble_ok _ _ _ _ _ _ _ _ _ Hm) in H. simpl in H.
  destruct H as (-> & Hn & Hall).
  exists mm, response.
  rewrite Hc2, Hc1 in Hgen. rewrite Hc2, Hc1 in Hcalls.
  repeat split; auto.
  - unfold task_body. simpl. fold taskId contextId.
    rewrite Hr2, Hr1, Hn2, Hn1. reflexivity.
  - rewrite Hn. unfold drawn_in_all. fold taskId contextId.
    rewrite Hn2, Hn1. reflexivity.
Qed.

Lemma accepted_message_truthy (env : Env) (rq : Request) :
  validate env = Accepted rq ->
  truthy (rq_message rq) = true
  /\ typeof_object (rq_message rq) = true
  /\ is_string (opt_prop (rq_message rq) "kind") "message" = true
  /\ truthy (opt_prop (rq_message rq) "role") = true
  /\ truthy (opt_prop (rq_message rq) "parts") = true
  /\ truthy (rq_id rq) = true.
Proof.
  unfold validate. intros H.
  destruct (req_json env) as [body_|e]; [|discriminate].
  destruct (nullish body_); [discriminate|].
  destruct (negb (is_string (opt_prop body_ "jsonrpc") "2.0")
            || negb (truthy (opt_prop body_ "id"))) eqn:Henv; [discriminate|].
  destruct (negb (is_string (opt_prop body_ "method") "message/send")); [discriminate|].
  destruct (getAgent env (req_param_agentId env)) as [[agent|]|e]; try discriminate.
  cbv zeta in H.
  destruct (negb (truthy _) || negb (typeof_object _)) eqn:Hmsg in H; [discriminate|].
  destruct (negb (is_string _ "message") || _ || _) eqn:Hshape in H; [discriminate|].
  injection H as <-. simpl.
  apply orb_false_elim in Henv. destruct Henv as [_ Hid].
  apply orb_false_elim in Hmsg. destruct Hmsg as [Hm Hobj].
  apply orb_false_elim in Hshape. destruct Hshape as [Hshape Hparts].
  apply orb_false_elim in Hshape. destruct Hshape as [Hkind Hrole].
  rewrite negb_false_iff in *. auto 10.
Qed.

(** Every response sent with status 200 comes from an accepted request whose
    message was translated and whose agent answered, and its body is the
    closed form [task_body]. *)
Lemma success_shape (env : Env) (st st' : State) (resp : Response) :
  a2aAgentRoute env st = (Ok resp, st') ->
  successful resp ->
  exists rq mm response,
    validate env = Accepted rq
    /\ mastraMessage env (rq_message rq) = Ok mm
    /\ generate (rq_agent rq) (agent_calls st) [mm] = Ok response
    /\ Forall (fun r => nullish r = false) (tool_results response)
    /\ body resp = task_body env rq (uuids_issued st) response
    /\ uuids_issued st' = drawn_in_all rq (uuids_issued st) response
    /\ agent_calls st' = (agent_calls st ++ [[mm]])%list.
Proof.
  unfold successful. intros Hrun Hok.
  destruct (validate env) as [rq|why|e] eqn:Hv.
  - rewrite (route_accepted _ _ _ Hv) in Hrun. unfold try_catch in Hrun.
    destruct (answer env (rq_agent rq) (rq_message rq) (rq_configuration rq)
                (with_requestId (rq_id rq) st)) as [[resp'|e] st1] eqn:Hans.
    + injection Hrun as -> ->.
      destruct (accepted_message_truthy _ _ Hv) as (Hm & _).
      apply (answer_ok _ _ _ _ _ Hm) in Hans. simpl in Hans.
      destruct Hans as (mm & response & H1 & H2 & H3 & -> & H5 & H6).
      exists rq, mm, response. destruct rq; simpl in *. auto 10.
    + apply catch_block_status in Hrun. rewrite Hrun in Hok. discriminate.
  - destruct (route_rejected env why st Hv) as (resp' & st1 & Hrun' & _ & _ & Hcase).
    rewrite Hrun' in Hrun. injection Hrun as -> ->.
    destruct Hcase as [(Hs & _) | (_ & Hs & _)]; rewrite Hs in Hok;
      [destruct why|]; discriminate.
  - destruct (route_failed env e st Hv) as (rid & Hrun').
    rewrite Hrun' in Hrun. apply catch_block_status in Hrun.
    rewrite Hrun in Hok. discriminate.
Qed.

(** A response sent with any other status carries no result. *)
Lemma failure_has_no_result (env : Env) (st st' : State) (resp : Response) :
  a2aAgentRoute env st = (Ok resp, st') ->
  status resp <> 200%Z ->
  result_of resp = VUndefined.
Proof.
  intros Hrun Hnot.
  destruct (validate env) as [rq|why|e] eqn:Hv.
  - rewrite (route_accepted _ _ _ Hv) in Hrun. unfold try_catch in Hrun.
    destruct (answer env (rq_agent rq) (rq_message rq) (rq_configuration rq)
                (with_requestId (rq_id rq) st)) as [[resp'|e] st1] eqn:Hans.
    + injection Hrun as -> ->.
      destruct (accepted_message_truthy _ _ Hv) as (Hm & _).
      apply (answer_ok _ _ _ _ _ Hm) in Hans.
      destruct Hans as (mm & response & _ & _ & _ & -> & _).
      exfalso. apply Hnot. reflexivity.
    + apply catch_block_ok in Hrun. destruct Hrun as (d & _ & -> & _). reflexivity.
  - destruct (route_rejected env why st Hv) as (resp' & st1 & Hrun' & _ & _ & Hcase).
    rewrite Hrun' in Hrun. injection Hrun as -> ->.
    destruct Hcase as [(_ & _ & Hres & _) | (_ & _ & _ & Hres)]; exact Hres.
  - destruct (route_failed env e st Hv) as (rid & Hrun').
    rewrite Hrun' in Hrun.
    apply catch_block_ok in Hrun. destruct Hrun as (d & _ & -> & _). reflexivity.
Qed.

(** ** Translating the message *)

Lemma or_else_string (s : string) : or_else (VStr s) (VStr "") = VStr s.
Proof.
  unfold or_else. simpl. destruct (s =? "") eqn:H; [|reflexivity].
  apply String.eqb_eq in H. subst s. reflexivity.
Qed.

Lemma well_typed_readable (env : Env) (part : value) :
  part_well_typed part = true -> part_readable env part = true.
Proof.
  unfold part_well_typed, part_readable. intros H.
  apply andb_true_iff in H. destruct H as [-> H]. simpl.
  destruct (is_string (opt_prop part "kind") "text"); [|reflexivity].
  destruct (opt_prop part "text"); try discriminate. reflexivity.
Qed.

Lemma part_content_readable (env : Env) (part : value) :
  part_readable env part = true ->
  exists v, part_content env part = Ok v /\ join_item (number_to_string env) v = Ok (part_contribution env part).
Proof.
  unfold part_readable, part_content, part_contribution, text_string. intros H.
  apply andb_true_iff in H. destruct H as [Hnull Htext].
  apply negb_true_iff in Hnull.
  rewrite !(get_prop_ok _ _ Hnull). simpl.
  destruct (is_string (opt_prop part "kind") "text").
  - exists (opt_prop part "text"). split; [reflexivity|].
    destruct (join_item (number_to_string env) (opt_prop part "text")); [reflexivity | discriminate].
  - destruct (is_string (opt_prop part "kind") "data").
    + unfold JSON_stringify.
      destruct (serialize (number_to_string env) (opt_prop part "data")) as [s|]; eexists; split; reflexivity.
    + exists (VStr ""). split; reflexivity.
Qed.

Lemma part_content_unreadable (env : Env) (part : value) :
  part_readable env part = false ->
  (exists e, part_content env part = Throw e)
  \/ (exists v e, part_content env part = Ok v /\ join_item (number_to_string env) v = Throw e).
Proof.
  unfold part_readable, part_content, text_string. intros H.
  destruct (nullish part) eqn:Hnull.
  - left. unfold get_prop. rewrite Hnull. simpl. eexists. reflexivity.
  - right. rewrite !(get_prop_ok _ _ Hnull). simpl in *.
    destruct (is_string (opt_prop part "kind") "text"); [|discriminate].
    destruct (join_item (number_to_string env) (opt_prop part "text")) as [s|e] eqn:Hj; [discriminate|].
    exists (opt_prop part "text"), e. split; [reflexivity | exact Hj].
Qed.

(** Mapping the parts and joining the results either yields the
    contributions of all parts, or fails, according to whether every part is
    readable. *)
Lemma parts_translation (env : Env) (parts : list value) :
  if forallb (part_readable env) parts
  then exists mapped,
         array_map (part_content env) parts = Ok mapped
         /\ join_items (number_to_string env) mapped = Ok (map (part_contribution env) parts)
  else exists e, obind (array_map (part_content env) parts) (join_items (number_to_string env)) = Throw e.
Proof.
  induction parts as [|p rest IH]; simpl.
  - exists []. split; reflexivity.
  - destruct (part_readable env p) eqn:Hp; simpl.
    + destruct (part_content_readable env p Hp) as (v & Hv & Hj). rewrite Hv. simpl.
      destruct (forallb (part_readable env) rest).
      * destruct IH as (mapped & Hm & Hjs). exists (v :: mapped).
        rewrite Hm. simpl. rewrite Hj, Hjs. split; reflexivity.
      * destruct IH as (e & He).
        destruct (array_map (part_content env) rest) as [ys|e']; simpl in *.
        -- rewrite Hj, He. exists e. reflexivity.
        -- exists e'. reflexivity.
    + destruct (part_content_unreadable env p Hp) as [(e & He) | (v & e & Hv & Hj)].
      * rewrite He. exists e. reflexivity.
      * rewrite Hv. simpl.
        destruct (array_map (part_content env) rest) as [ys|e']; simpl.
        -- rewrite Hj. exists e. reflexivity.
        -- exists e'. reflexivity.
Qed.

(** With readable parts the translation succeeds, and the content is the
    parts' contributions joined by a newline; otherwise it throws. *)
Lemma mastraMessage_translation (env : Env) (message : value) (parts : list value) :
  truthy message = true ->
  opt_prop message "parts" = VArr parts ->
  if forallb (part_readable env) parts
  then mastraMessage env message
       = Ok {| role := opt_prop message "role"; content := VStr (joined_content env parts) |}
  else exists e, mastraMessage env message = Throw e.
Proof.
  intros Hm Hparts. unfold mastraMessage.
  rewrite !(get_prop_truthy _ _ Hm). simpl. rewrite Hparts. simpl.
  pose proof (parts_translation env parts) as H.
  destruct (forallb (part_readable env) parts).
  - destruct H as (mapped & Hmap & Hjoin).
    rewrite Hmap. simpl. unfold array_join. rewrite Hjoin. simpl.
    rewrite or_else_string. reflexivity.
  - destruct H as (e & He).
    destruct (array_map (part_content env) parts) as [mapped|e']; simpl in *.
    + unfold array_join. rewrite He. exists e. reflexivity.
    + exists e'. reflexivity.
Qed.

(** Parts typed as the data model types them are always translated, a text
    part contributing its text as it is. *)
Lemma typed_parts_translate (env : Env) (message : value) (parts : list value) :
  truthy message = true ->
  opt_prop message "parts" = VArr parts ->
  forallb part_well_typed parts = true ->
  mastraMessage env message
  = Ok {| role := opt_prop message "role"; content := VStr (joined_content env parts) |}.
Proof.
  intros Hm Hparts Htyped.
  pose proof (mastraMessage_translation env _ _ Hm Hparts) as H.
  replace (forallb (part_readable env) parts) with true in H; [exact H|].
  symmetry. rewrite forallb_forall in *. intros p Hp.
  apply well_typed_readable, Htyped, Hp.
Qed.

(** A number in a data payload and a number as a text are written the way
    the engine renders them, exponent forms and fractions included. *)
Example numbers_as_the_engine_renders (env : Env) (x y : number) :
  mastraMessage env
    (sample_message
       (VArr [data_part (VNum x); VObj [("kind", VStr "text"); ("text", VNum y)]]) [])
  = Ok {| role := VStr "user";
          content :=
            VStr ((if PrimFloat.is_finite x then number_to_string env x else "null")
                  ++ lf ++ number_to_string env y) |}.
Proof.
  unfold mastraMessage. simpl. rewrite or_else_string. reflexivity.
Qed.

(** When the translation throws, the agent is not invoked. *)
Lemma answer_not_invoked (env : Env) (agent : Agent) (message cfg : value)
  (e : exn) (st : State) :
  truthy message = true ->
  mastraMessage env message = Throw e ->
  agent_calls (snd (try_catch (answer env agent message cfg) (catch_block env) st))
  = agent_calls st.
Proof.
  intros Hm Hmm. unfold try_catch, answer.
  rewrite !(get_prop_truthy _ _ Hm), Hmm.
  unfold bind at 1 2 3 4 5. unfold lift at 1 2 3.
  rewrite !or_randomUUID_run.
  rewrite catch_block_state. simpl.
  destruct (truthy (opt_prop message "taskId")),
    (truthy (opt_prop message "contextId")); reflexivity.
Qed.

(** Once the message is translated the agent is invoked, exactly once,
    whatever happens afterwards. *)
Lemma answer_invokes (env : Env) (agent : Agent) (message cfg : value)
  (mm : MastraMessage) (st : State) :
  truthy message = true ->
  mastraMessage env message = Ok mm ->
  agent_calls (snd (try_catch (answer env agent message cfg) (catch_block env) st))
  = (agent_calls st ++ [[mm]])%list.
Proof.
  intros Hm Hmm. unfold try_catch, answer.
  rewrite !(get_prop_truthy _ _ Hm), Hmm.
  unfold bind at 1 2 3 4 5. unfold lift at 1 2 3.
  rewrite !or_randomUUID_run.
  set (st1 := if truthy (opt_prop message "taskId") then st else with_uuid_drawn st).
  set (st2 := if truthy (opt_prop message "contextId") then st1 else with_uuid_drawn st1).
  assert (Hc : agent_calls st2 = agent_calls st).
  { unfold st2, st1.
    destruct (truthy (opt_prop message "taskId")),
      (truthy (opt_prop message "contextId")); reflexivity. }
  unfold bind, agent_generate.
  destruct (generate agent (agent_calls st2) [mm]) as [response|e].
  - match goal with
    | |- context [assemble ?a ?b ?c ?d ?e ?f ?s] =>
        pose proof (quiet_assemble a b c d e f s) as Hq;
        destruct (assemble a b c d e f s) as [[resp|e'] st3]
    end; destruct Hq as (Hq & _ & _); simpl in Hq.
    + simpl. rewrite Hq, Hc. reflexivity.
    + pose proof (quiet_catch_block env e' st3) as (Hq' & _ & _).
      rewrite Hq', Hq, Hc. reflexivity.
  - pose proof (quiet_catch_block env e (with_call [mm] st2)) as (Hq' & _ & _).
    rewrite Hq'. simpl. rewrite Hc. reflexivity.
Qed.

(** ** When the handler itself fails *)

(** The handler's promise rejects in one situation only: something threw
    null or undefined, and the [catch] block read [message] off it. *)
Lemma route_throws (env : Env) (st st' : State) (e : exn) :
  a2aAgentRoute env st = (Throw e, st') ->
  exists v, nullish v = true /\ e = TypeError (NullishAccess v "message").
Proof.
  unfold a2aAgentRoute, bind, set_requestId, try_catch. simpl.
  destruct (try_block env (with_requestId VNull st)) as [[resp|e0] st1]; [discriminate|].
  unfold catch_block, bind, console_write, get_requestId, lift, ret. simpl.
  destruct (error_message env e0) as [d|e1] eqn:Hmsg; [discriminate|].
  intros [= <- _].
  destruct e0 as [t|m|v]; simpl in Hmsg; try discriminate.
  unfold get_prop in Hmsg. destruct (nullish v) eqn:Hv; [|discriminate].
  injection Hmsg as <-. exists v. split; [exact Hv | reflexivity].
Qed.

(** A failure of the agent that carries a readable [message] is answered
    with status 500, code -32603, the request's id and that message. *)
Lemma generate_failure_answered (env : Env) (rq : Request) (mm : MastraMessage)
  (e : exn) (details : value) (st : State) :
  validate env = Accepted rq ->
  mastraMessage env (rq_message rq) = Ok mm ->
  generate (rq_agent rq) (agent_calls st) [mm] = Throw e ->
  error_message env e = Ok details ->
  fst (a2aAgentRoute env st)
  = Ok (c_json
          (VObj [("jsonrpc", VStr "2.0");
                 ("id", rq_id rq);
                 ("error",
                   VObj [("code", VNum (-32603));
                         ("message", VStr "Internal error");
                         ("data", VObj [("details", details)])])])
          500).
Proof.
  intros Hv Hmm Hgen Hd. rewrite (route_accepted _ _ _ Hv).
  destruct (accepted_message_truthy _ _ Hv) as (Hm & _).
  unfold try_catch, answer.
  rewrite !(get_prop_truthy _ _ Hm), Hmm.
  unfold bind at 1 2 3 4 5. unfold lift at 1 2 3.
  rewrite !or_randomUUID_run.
  set (st0 := with_requestId (rq_id rq) st).
  set (st1 := if truthy (opt_prop (rq_message rq) "taskId") then st0 else with_uuid_drawn st0).
  set (st2 := if truthy (opt_prop (rq_message rq) "contextId") then st1 else with_uuid_drawn st1).
  assert (Hc : agent_calls st2 = agent_calls st /\ requestId st2 = rq_id rq).
  { unfold st2, st1.
    destruct (truthy (opt_prop (rq_message rq) "taskId")),
      (truthy (opt_prop (rq_message rq) "contextId")); split; reflexivity. }
  destruct Hc as [Hc Hr].
  unfold bind, agent_generate. rewrite Hc, Hgen.
  unfold catch_block, bind, console_write, get_requestId, lift, ret. simpl.
  rewrite Hd, Hr. reflexivity.
Qed.


(** ** Identifiers and artifacts *)

Lemma drawn_after_bounds (v : value) (n : nat) :
  n <= drawn_after v n <= S n /\ (truthy v = false -> drawn_after v n = S n).
Proof. unfold drawn_after. destruct (truthy v); split; try lia; congruence. Qed.

Lemma supplied_or_truthy (env : Env) (v : value) (n : nat) :
  truthy v = true -> supplied_or env v n = v.
Proof. unfold supplied_or. intros ->. reflexivity. Qed.

Lemma supplied_or_falsy (env : Env) (v : value) (n : nat) :
  truthy v = false -> supplied_or env v n = VStr (uuid_source env n).
Proof. unfold supplied_or. intros ->. reflexivity. Qed.

(** Where the UUIDs of a success come from: the ranges are ordered, and all
    lie within the run. *)
Lemma drawn_in_all_bounds (rq : Request) (n0 : nat) (response : GenerateResult) :
  let message := rq_message rq in
  let n1 := drawn_after (opt_prop message "taskId") n0 in
  let n2 := drawn_after (opt_prop message "contextId") n1 in
  let n3 := S n2 + length (tool_results response) in
  n0 <= n1 /\ n1 <= n2 /\ n3 <= drawn_in_all rq n0 response
  /\ (truthy (opt_prop message "taskId") = false -> n0 < n1)
  /\ (truthy (opt_prop message "contextId") = false -> n1 < n2)
  /\ (truthy (opt_prop message "messageId") = false -> n3 < drawn_in_all rq n0 response).
Proof.
  cbv zeta. unfold drawn_in_all.
  set (message := rq_message rq).
  pose proof (drawn_after_bounds (opt_prop message "taskId") n0) as [H1 H1'].
  set (n1 := drawn_after (opt_prop message "taskId") n0) in *.
  pose proof (drawn_after_bounds (opt_prop message "contextId") n1) as [H2 H2'].
  set (n2 := drawn_after (opt_prop message "contextId") n1) in *.
  pose proof (drawn_after_bounds (opt_prop message "messageId")
                (S n2 + length (tool_results response))) as [H3 H3'].
  repeat split; try lia.
  - intros H. specialize (H1' H). lia.
  - intros H. specialize (H2' H). lia.
  - intros H. specialize (H3' H). lia.
Qed.

Lemma decimal_injective (a b : Z) : decimal a = decimal b -> a = b.
Proof.
  unfold decimal. intros H.
  assert (Hnn : forall z, Z.to_int z <> Decimal.Pos Decimal.Nil
                          /\ Z.to_int z <> Decimal.Neg Decimal.Nil).
  { intros [|p|p]; simpl; split; try discriminate; intros [= E];
      apply (DecimalPos.Unsigned.to_uint_nonnil p); exact E. }
  apply DecimalZ.to_int_inj.
  assert (Some (Z.to_int a) = Some (Z.to_int b)) as [= E]; [|exact E].
  rewrite <- (NilZero.isi (Z.to_int a)), <- (NilZero.isi (Z.to_int b)); try apply Hnn.
  rewrite H. reflexivity.
Qed.

Lemma sample_uuid_injective (a b : nat) : sample_uuid a = sample_uuid b -> a = b.
Proof.
  unfold sample_uuid. simpl. intros [= H].
  apply decimal_injective in H. lia.
Qed.

Lemma artifacts_from_ids (env : Env) (n : nat) (results : list value) :
  artifacts_from env n results
  = map artifact_of
        (combine (map (fun k => VStr (uuid_source env k)) (seq n (length results)))
                 results).
Proof.
  revert n. induction results as [|r rest IH]; intros n; simpl; [reflexivity|].
  rewrite IH. reflexivity.
Qed.


Lemma mastraMessage_no_array (env : Env) (message : value) :
  truthy message = true ->
  (forall parts, opt_prop message "parts" <> VArr parts) ->
  mastraMessage env message = Throw (TypeError (NotAFunction "map")).
Proof.
  intros Hm Hparts. unfold mastraMessage.
  rewrite !(get_prop_truthy _ _ Hm). simpl.
  destruct (opt_prop message "parts") as [| | | | |parts|]; try reflexivity.
  exfalso. apply (Hparts parts). reflexivity.
Qed.

(** ** The handler on sample requests *)

(** A request that asks not to block and names a webhook is answered like
    any other; the URL is logged and nothing else happens with it. *)
Example non_blocking_still_synchronous :
  exists resp st',
    a2aAgentRoute
      (sample_env
         (Ok (VObj [("jsonrpc", VStr "2.0"); ("id", VStr "1");
                    ("method", VStr "message/send");
                    ("params",
                      VObj [("message", hello []);
                            ("configuration",
                              VObj [("blocking", VBool false);
                                    ("pushNotificationConfig",
                                      VObj [("url", VStr "https://example.org/hook")])])])]))
         (plain_reply "ok"))
      initial_state = (Ok resp, st')
    /\ status resp = 200%Z
    /\ console st' = [LogWebhook (VStr "https://example.org/hook")]
    /\ at_path (body resp) ["result"; "status"; "message"; "parts"] = VArr [text_part "ok"].
Proof. eexists _, _. repeat split. Qed.

(** A body that is not JSON: the parse error reaches the [catch] block before
    any id is known. *)
Example unparseable_body :
  fst (a2aAgentRoute
         (sample_env (Throw (ErrorObject "Unexpected token")) (plain_reply "ok"))
         initial_state)
  = Ok (c_json
          (VObj [("jsonrpc", VStr "2.0");
                 ("id", VNull);
                 ("error",
                   VObj [("code", VNum (-32603));
                         ("message", VStr "Internal error");
                         ("data", VObj [("details", VStr "Unexpected token")])])])
          500).
Proof. reflexivity. Qed.

(** An agent that fails with an [Error]: status 500 under the request's id. *)
Example agent_error_answered :
  fst (a2aAgentRoute (serve (hello []) (Throw (ErrorObject "model unavailable")))
                     initial_state)
  = Ok (c_json
          (VObj [("jsonrpc", VStr "2.0");
                 ("id", VStr "1");
                 ("error",
                   VObj [("code", VNum (-32603));
                         ("message", VStr "Internal error");
                         ("data", VObj [("details", VStr "model unavailable")])])])
          500).
Proof. reflexivity. Qed.

(** Parts that are a string pass validation and fail in the translation. *)
Example string_parts_internal_error :
  exists resp st',
    a2aAgentRoute (serve (sample_message (VStr "hi") []) (plain_reply "ok")) initial_state
    = (Ok resp, st')
    /\ status resp = 500%Z
    /\ at_path (body resp) ["error"; "code"] = VNum (-32603)
    /\ agent_calls st' = [].
Proof. eexists _, _. repeat split. Qed.

(** A tool result that is null makes the assembly fail after the agent has
    answered; the [catch] block answers with the engine's message. *)
Example null_tool_result_internal_error :
  exists resp st',
    a2aAgentRoute (serve (hello []) (tool_reply "done" [VNull])) initial_state
    = (Ok resp, st')
    /\ status resp = 500%Z
    /\ at_path (body resp) ["id"] = VStr "1"
    /\ at_path (body resp) ["error"; "code"] = VNum (-32603)
    /\ at_path (body resp) ["error"; "data"; "details"] = VStr "TypeError"
    /\ agent_calls st' = [[{| role := VStr "user"; content := VStr "hi" |}]].
Proof. eexists _, _. repeat split. Qed.

(** * The specification, statement by statement *)

(** ** Message translation *)

(** C1. For every accepted request, the content passed to the agent is made
    of the message's parts in order, each contributing its text (a text
    part), the JSON serialization of its payload (a data part) or the empty
    string (any other kind), joined by a newline; the result may be empty.
    Numbers in a payload are written as the engine's Number::toString
    renders them, whatever their size or fraction, and [null] when they are
    not finite.  The agent is invoked once with that content and the
    message's role, provided the parts can be read at all: they form an
    array, none of them is null or undefined, and every text has a string
    form (which holds for parts typed as the data model types them, see
    [well_typed_readable]).  Otherwise the agent is not invoked. *)
Theorem content_passed_to_agent (env : Env) (rq : Request) (st : State) :
  validate env = Accepted rq ->
  agent_calls (snd (a2aAgentRoute env st))
  = (agent_calls st
       ++ match opt_prop (rq_message rq) "parts" with
          | VArr parts =>
              if forallb (part_readable env) parts
              then [[{| role := opt_prop (rq_message rq) "role";
                        content :=
                          VStr (String.concat lf (map (part_contribution env) parts)) |}]]
              else []
          | _ => []
          end)%list.
Proof.
  intros Hv.
  destruct (accepted_message_truthy _ _ Hv) as (Hm & _).
  rewrite (route_accepted _ _ _ Hv).
  destruct (opt_prop (rq_message rq) "parts") as [| | | | |parts|] eqn:Hparts;
    try (rewrite (answer_not_invoked env _ _ _ (TypeError (NotAFunction "map")) _ Hm);
         [ rewrite app_nil_r; reflexivity
         | apply mastraMessage_no_array; [exact Hm | intros parts; congruence] ]).
  pose proof (mastraMessage_translation env _ _ Hm Hparts) as Ht.
  destruct (forallb (part_readable env) parts).
  - rewrite (answer_invokes env _ _ _ _ _ Hm Ht). reflexivity.
  - destruct Ht as (e & He).
    rewrite (answer_not_invoked env _ _ _ e _ Hm He), app_nil_r. reflexivity.
Qed.

(** The specification's example, [[{kind:"text", text:"a"}, {kind:"data",
    data:{x:1}}]], and a single part of unknown kind, whose content is
    empty. *)
Lemma content_passed_to_agent_example :
  agent_calls
    (snd (a2aAgentRoute
            (serve (sample_message
                      (VArr [text_part "a"; data_part (VObj [("x", VNum 1)])]) [])
                   (plain_reply "ok"))
            initial_state))
  = [[{| role := VStr "user";
         content := VStr ("a" ++ lf ++ "{" ++ dq ++ "x" ++ dq ++ ":1}") |}]]
  /\ agent_calls
       (snd (a2aAgentRoute
               (serve (sample_message (VArr [VObj [("kind", VStr "file")]]) [])
                      (plain_reply "ok"))
               initial_state))
     = [[{| role := VStr "user"; content := VStr "" |}]].
Proof.
  split.
  - exact (content_passed_to_agent
             (serve (sample_message
                       (VArr [text_part "a"; data_part (VObj [("x", VNum 1)])]) [])
                    (plain_reply "ok"))
             (sample_accepted
                (sample_message
                   (VArr [text_part "a"; data_part (VObj [("x", VNum 1)])]) [])
                (plain_reply "ok"))
             initial_state eq_refl).
  - exact (content_passed_to_agent
             (serve (sample_message (VArr [VObj [("kind", VStr "file")]]) [])
                    (plain_reply "ok"))
             (sample_accepted
                (sample_message (VArr [VObj [("kind", VStr "file")]]) [])
                (plain_reply "ok"))
             initial_state eq_refl).
Defined.

(** ** The task state *)

(** C9. Every successful response has [result.status.state] equal to
    "completed" and [result.kind] equal to "task"; and no other task state
    is ever produced, as a response that is not a success has no result at
    all. *)
Theorem success_is_completed_task (env : Env) (st st' : State) (resp : Response) :
  a2aAgentRoute env st = (Ok resp, st') ->
  (successful resp ->
   at_path (body resp) ["result"; "status"; "state"] = VStr "completed"
   /\ at_path (body resp) ["result"; "kind"] = VStr "task")
  /\ (~ successful resp -> result_of resp = VUndefined).
Proof.
  intros Hrun. split.
  - intros Hok.
    destruct (success_shape _ _ _ _ Hrun Hok)
      as (rq & mm & response & _ & _ & _ & _ & Hb & _).
    rewrite Hb. split; reflexivity.
  - intros Hnot. apply (failure_has_no_result _ _ _ _ Hrun). exact Hnot.
Qed.

Lemma success_is_completed_task_example :
  exists resp st',
    a2aAgentRoute (serve (hello []) (plain_reply "ok")) initial_state = (Ok resp, st')
    /\ successful resp
    /\ at_path (body resp) ["result"; "status"; "state"] = VStr "completed"
    /\ at_path (body resp) ["result"; "kind"] = VStr "task".
Proof.
  eexists _, _. split; [reflexivity|]. split; [reflexivity|].
  exact (proj1 (success_is_completed_task (serve (hello []) (plain_reply "ok"))
                  initial_state _ _ eq_refl) eq_refl).
Defined.

(** ** Validation failures *)

(** C7. A request that fails validation (bad envelope, wrong method, unknown
    agent, missing or malformed message) gets its error response, with the
    status and the code of the failed check and without result, and by then
    the agent has not been invoked and no UUID has been drawn.  (A wrong
    method that has no string form cannot be quoted in the error message;
    that request is answered by the [catch] block instead, the agent not
    invoked either.) *)
Theorem rejected_before_agent (env : Env) (why : rejection) (st : State) :
  validate env = Rejected why ->
  exists resp st',
    a2aAgentRoute env st = (Ok resp, st')
    /\ agent_calls st' = agent_calls st
    /\ uuids_issued st' = uuids_issued st
    /\ result_of resp = VUndefined
    /\ status resp <> 200%Z
    /\ ((status resp = rejection_status why
         /\ at_path (body resp) ["error"; "code"] = VNum (rejection_code why))
        \/ (why = MethodNotFound
            /\ status resp = 500%Z
            /\ at_path (body resp) ["error"; "code"] = VNum (-32603))).
Proof.
  intros Hv.
  destruct (route_rejected env why st Hv) as (resp & st' & Hrun & Hc & Hn & Hcase).
  exists resp, st'. split; [exact Hrun|]. split; [exact Hc|]. split; [exact Hn|].
  destruct Hcase as [(Hs & Hcode & Hres & _) | (Hwhy & Hs & Hcode & Hres)].
  - split; [exact Hres|]. split.
    + rewrite Hs. destruct why; discriminate.
    + left. split; [exact Hs | exact Hcode].
  - split; [exact Hres|]. split.
    + rewrite Hs. discriminate.
    + right. repeat split; assumption.
Qed.

(** The blog's request, whose method is "generate": status 400, code -32601. *)
Lemma rejected_before_agent_example :
  validate (sample_env
              (Ok (VObj [("jsonrpc", VStr "2.0"); ("id", VStr "123");
                         ("method", VStr "generate")]))
              (plain_reply "ok"))
  = Rejected MethodNotFound
  /\ exists resp st',
       a2aAgentRoute
         (sample_env
            (Ok (VObj [("jsonrpc", VStr "2.0"); ("id", VStr "123");
                       ("method", VStr "generate")]))
            (plain_reply "ok"))
         initial_state = (Ok resp, st')
       /\ agent_calls st' = agent_calls initial_state
       /\ uuids_issued st' = uuids_issued initial_state
       /\ result_of resp = VUndefined
       /\ status resp <> 200%Z
       /\ ((status resp = rejection_status MethodNotFound
            /\ at_path (body resp) ["error"; "code"] = VNum (rejection_code MethodNotFound))
           \/ (MethodNotFound = MethodNotFound
               /\ status resp = 500%Z
               /\ at_path (body resp) ["error"; "code"] = VNum (-32603))).
Proof.
  split; [reflexivity|].
  exact (rejected_before_agent
           (sample_env
              (Ok (VObj [("jsonrpc", VStr "2.0"); ("id", VStr "123");
                         ("method", VStr "generate")]))
              (plain_reply "ok"))
           MethodNotFound initial_state eq_refl).
Defined.

(** C5, as the handler has it.  With a sound envelope, the right method and
    a known agent, a request is rejected with code -32602 and status 400 when
    [params.message] is missing (or otherwise falsy) or is no object, when its
    kind is not "message", or when its role or its parts are missing or
    otherwise falsy.  Otherwise the message passes validation: the test on
    the parts is one of truthiness, which the empty sequence passes. *)
Theorem malformed_message_rejected (env : Env) (body_ : value) (agent : Agent)
  (st : State) :
  req_json env = Ok body_ ->
  nullish body_ = false ->
  is_string (opt_prop body_ "jsonrpc") "2.0" = true ->
  truthy (opt_prop body_ "id") = true ->
  is_string (opt_prop body_ "method") "message/send" = true ->
  getAgent env (req_param_agentId env) = Ok (Some agent) ->
  if negb (truthy (at_path body_ ["params"; "message"]))
     || negb (typeof_object (at_path body_ ["params"; "message"]))
     || negb (is_string (at_path body_ ["params"; "message"; "kind"]) "message")
     || negb (truthy (at_path body_ ["params"; "message"; "role"]))
     || negb (truthy (at_path body_ ["params"; "message"; "parts"]))
  then exists resp st',
         a2aAgentRoute env st = (Ok resp, st')
         /\ status resp = 400%Z
         /\ at_path (body resp) ["error"; "code"] = VNum (-32602)
         /\ result_of resp = VUndefined
         /\ agent_calls st' = agent_calls st
  else validate env
       = Accepted {| rq_agent := agent;
                     rq_id := opt_prop body_ "id";
                     rq_message := at_path body_ ["params"; "message"];
                     rq_configuration := at_path body_ ["params"; "configuration"] |}.
Proof.
  intros Hbody Hnull Hrpc Hid Hmeth Hagent.
  assert (Hpath : forall key rest,
             at_path body_ ("params" :: key :: rest)
             = at_path (opt_prop (or_else (opt_prop body_ "params") (VObj [])) key) rest).
  { intros key rest. simpl. unfold or_else.
    destruct (truthy (opt_prop body_ "params")) eqn:Hp; [reflexivity|].
    destruct (opt_prop body_ "params"); try discriminate; reflexivity. }
  rewrite !Hpath. cbn [at_path].
  set (message := opt_prop (or_else (opt_prop body_ "params") (VObj [])) "message").
  assert (Hv : validate env
               = if negb (truthy message) || negb (typeof_object message)
                 then Rejected MessageRequired
                 else if negb (is_string (opt_prop message "kind") "message")
                         || negb (truthy (opt_prop message "role"))
                         || negb (truthy (opt_prop message "parts"))
                      then Rejected InvalidMessage
                      else Accepted
                             {| rq_agent := agent;
                                rq_id := opt_prop body_ "id";
                                rq_message := message;
                                rq_configuration :=
                                  opt_prop (or_else (opt_prop body_ "params") (VObj []))
                                           "configuration" |}).
  { unfold validate. rewrite Hbody, Hnull, Hrpc, Hid, Hmeth. cbn [negb orb].
    rewrite Hagent. reflexivity. }
  assert (Hrej : forall why,
             validate env = Rejected why ->
             why = MessageRequired \/ why = InvalidMessage ->
             exists resp st',
               a2aAgentRoute env st = (Ok resp, st')
               /\ status resp = 400%Z
               /\ at_path (body resp) ["error"; "code"] = VNum (-32602)
               /\ result_of resp = VUndefined
               /\ agent_calls st' = agent_calls st).
  { intros why Hwhy Hkind.
    destruct (route_rejected env why st Hwhy) as (resp & st' & Hrun & Hc & _ & Hcase).
    exists resp, st'. split; [exact Hrun|].
    destruct Hcase as [(Hs & Hcode & Hres & _) | (Hm & _)].
    - destruct Hkind as [-> | ->]; auto.
    - destruct Hkind as [-> | ->]; discriminate. }
  destruct (negb (truthy message) || negb (typeof_object message)).
  - cbn [orb]. apply (Hrej _ Hv). left. reflexivity.
  - cbn [orb].
    destruct (negb (is_string (opt_prop message "kind") "message")
              || negb (truthy (opt_prop message "role"))
              || negb (truthy (opt_prop message "parts"))).
    + apply (Hrej _ Hv). right. reflexivity.
    + exact Hv.
Qed.

(** A request without [params.message] and one whose message has no parts
    are rejected; one whose parts are the empty sequence passes. *)
Lemma malformed_message_rejected_example :
  (exists resp st',
     a2aAgentRoute
       (sample_env
          (Ok (VObj [("jsonrpc", VStr "2.0"); ("id", VStr "1");
                     ("method", VStr "message/send"); ("params", VObj [])]))
          (plain_reply "ok"))
       initial_state = (Ok resp, st')
     /\ status resp = 400%Z
     /\ at_path (body resp) ["error"; "code"] = VNum (-32602)
     /\ result_of resp = VUndefined
     /\ agent_calls st' = agent_calls initial_state)
  /\ (exists resp st',
        a2aAgentRoute
          (serve (VObj [("kind", VStr "message"); ("role", VStr "user")])
                 (plain_reply "ok"))
          initial_state = (Ok resp, st')
        /\ status resp = 400%Z
        /\ at_path (body resp) ["error"; "code"] = VNum (-32602)
        /\ result_of resp = VUndefined
        /\ agent_calls st' = agent_calls initial_state)
  /\ validate (serve (sample_message (VArr []) []) (plain_reply "ok"))
     = Accepted (sample_accepted (sample_message (VArr []) []) (plain_reply "ok")).
Proof.
  split; [|split].
  - exact (malformed_message_rejected
             (sample_env
                (Ok (VObj [("jsonrpc", VStr "2.0"); ("id", VStr "1");
                           ("method", VStr "message/send"); ("params", VObj [])]))
                (plain_reply "ok"))
             _ _ initial_state eq_refl eq_refl eq_refl eq_refl eq_refl eq_refl).
  - exact (malformed_message_rejected
             (serve (VObj [("kind", VStr "message"); ("role", VStr "user")])
                    (plain_reply "ok"))
             _ _ initial_state eq_refl eq_refl eq_refl eq_refl eq_refl eq_refl).
  - exact (malformed_message_rejected
             (serve (sample_message (VArr []) []) (plain_reply "ok"))
             _ _ initial_state eq_refl eq_refl eq_refl eq_refl eq_refl eq_refl).
Defined.

(** C5 as stated does not hold: a message whose parts are the empty sequence
    passes validation, the agent is invoked with empty content, and the
    response is a success. *)
Lemma empty_parts_accepted :
  exists resp st',
    a2aAgentRoute (serve (sample_message (VArr []) []) (plain_reply "ok")) initial_state
    = (Ok resp, st')
    /\ status resp = 200%Z
    /\ error_of resp = VUndefined
    /\ at_path (body resp) ["result"; "status"; "state"] = VStr "completed"
    /\ agent_calls st' = [[{| role := VStr "user"; content := VStr "" |}]].
Proof.
  eexists _, _. repeat split.
Qed.

(** ** Failures *)

(** C6 does not hold on the code.  When the agent's [generate] rejects with
    [undefined], the [catch] block reads [error.message] off it, which throws
    in turn: the handler answers nothing, where the claim wants status 500
    and code -32603.  ([generate_failure_answered] covers the failures that
    do carry a message.) *)
Theorem generate_rejecting_undefined_unanswered :
  a2aAgentRoute (serve (hello []) (Throw (Thrown VUndefined))) initial_state
  = (Throw (TypeError (NullishAccess VUndefined "message")),
     {| requestId := VStr "1";
        uuids_issued := 2;
        agent_calls := [[{| role := VStr "user"; content := VStr "hi" |}]];
        console := [LogRouteError (Thrown VUndefined)] |}).
Proof. reflexivity. Qed.

(** C8 does not hold on the code.  A value thrown by the agent invocation
    can leave the handler: with [null] thrown, the handler's promise rejects
    and no response object is returned.  ([route_throws] shows this is the
    only way out.) *)
Theorem thrown_null_leaves_handler :
  fst (a2aAgentRoute (serve (hello []) (Throw (Thrown VNull))) initial_state)
  = Throw (TypeError (NullishAccess VNull "message"))
  /\ forall resp,
       fst (a2aAgentRoute (serve (hello []) (Throw (Thrown VNull))) initial_state)
       <> Ok resp.
Proof. split; [reflexivity | intros resp; discriminate]. Qed.

(** ** Identifiers *)

(** C4, as the handler has it.  In every successful response, [result.id]
    is [message.taskId] when that is truthy and a fresh UUID otherwise, and
    [result.contextId] is [message.contextId] when that is truthy and a fresh
    UUID otherwise: the derivation is [message.taskId || randomUUID()]. *)
Theorem task_and_context_ids (env : Env) (st st' : State) (resp : Response) :
  a2aAgentRoute env st = (Ok resp, st') ->
  successful resp ->
  exists rq,
    validate env = Accepted rq
    /\ (truthy (opt_prop (rq_message rq) "taskId") = true ->
        at_path (body resp) ["result"; "id"] = opt_prop (rq_message rq) "taskId")
    /\ (truthy (opt_prop (rq_message rq) "taskId") = false ->
        fresh_uuid env st st' (at_path (body resp) ["result"; "id"]))
    /\ (truthy (opt_prop (rq_message rq) "contextId") = true ->
        at_path (body resp) ["result"; "contextId"] = opt_prop (rq_message rq) "contextId")
    /\ (truthy (opt_prop (rq_message rq) "contextId") = false ->
        fresh_uuid env st st' (at_path (body resp) ["result"; "contextId"])).
Proof.
  intros Hrun Hok.
  destruct (success_shape _ _ _ _ Hrun Hok)
    as (rq & mm & response & Hv & _ & _ & _ & Hb & Hn & _).
  exists rq. split; [exact Hv|]. rewrite Hb. unfold fresh_uuid. rewrite Hn.
  pose proof (drawn_in_all_bounds rq (uuids_issued st) response) as Hbounds.
  cbv zeta in Hbounds. destruct Hbounds as (B1 & B2 & B3 & B4 & B5 & B6).
  simpl. repeat split.
  - intros H. apply supplied_or_truthy, H.
  - intros H. eexists. split; [|apply supplied_or_falsy, H].
    specialize (B4 H). lia.
  - intros H. apply supplied_or_truthy, H.
  - intros H. eexists. split; [|apply supplied_or_falsy, H].
    specialize (B5 H). lia.
Qed.

(** The specification's example: taskId "T1" and contextId "C1" come back. *)
Lemma task_and_context_ids_example :
  exists resp st',
    a2aAgentRoute
      (serve (hello [("taskId", VStr "T1"); ("contextId", VStr "C1")]) (plain_reply "ok"))
      initial_state = (Ok resp, st')
    /\ successful resp
    /\ at_path (body resp) ["result"; "id"] = VStr "T1"
    /\ at_path (body resp) ["result"; "contextId"] = VStr "C1".
Proof.
  eexists _, _. split; [reflexivity|]. split; [reflexivity|].
  destruct (task_and_context_ids
              (serve (hello [("taskId", VStr "T1"); ("contextId", VStr "C1")])
                     (plain_reply "ok"))
              initial_state _ _ eq_refl eq_refl)
    as (rq & Hv & Htask & _ & Hctx & _).
  injection Hv as <-.
  split; [exact (Htask eq_refl) | exact (Hctx eq_refl)].
Defined.

(** C4 as stated does not hold: a taskId and a contextId supplied
    explicitly, as empty strings, are not echoed. *)
Lemma explicit_empty_ids_not_echoed :
  exists resp st',
    a2aAgentRoute
      (serve (hello [("taskId", VStr ""); ("contextId", VStr "")]) (plain_reply "ok"))
      initial_state = (Ok resp, st')
    /\ status resp = 200%Z
    /\ at_path (body resp) ["result"; "id"] = VStr "uuid-0"
    /\ at_path (body resp) ["result"; "id"] <> VStr ""
    /\ at_path (body resp) ["result"; "contextId"] = VStr "uuid-1"
    /\ at_path (body resp) ["result"; "contextId"] <> VStr "".
Proof.
  eexists _, _. repeat split; discriminate.
Qed.

(** C10. In every successful response an identifier the message carries is
    kept only when it is truthy: a [taskId], [contextId] or [messageId] that
    is present but falsy (the empty string, say) is replaced by a fresh UUID,
    exactly as an absent one is. *)
Theorem falsy_ids_replaced (env : Env) (st st' : State) (resp : Response) :
  a2aAgentRoute env st = (Ok resp, st') ->
  successful resp ->
  exists rq,
    validate env = Accepted rq
    /\ (forall key out,
          In (key, out)
             [("taskId", at_path (body resp) ["result"; "id"]);
              ("contextId", at_path (body resp) ["result"; "contextId"]);
              ("messageId",
                opt_prop (nth_item 0 (at_path (body resp) ["result"; "history"]))
                         "messageId")] ->
          (truthy (opt_prop (rq_message rq) key) = false -> fresh_uuid env st st' out)
          /\ (truthy (opt_prop (rq_message rq) key) = true ->
              out = opt_prop (rq_message rq) key)).
Proof.
  intros Hrun Hok.
  destruct (success_shape _ _ _ _ Hrun Hok)
    as (rq & mm & response & Hv & _ & _ & _ & Hb & Hn & _).
  exists rq. split; [exact Hv|]. rewrite Hb. unfold fresh_uuid. rewrite Hn.
  pose proof (drawn_in_all_bounds rq (uuids_issued st) response) as Hbounds.
  cbv zeta in Hbounds. destruct Hbounds as (B1 & B2 & B3 & B4 & B5 & B6).
  intros key out Hin. simpl in Hin.
  destruct Hin as [[= <- <-] | [[= <- <-] | [[= <- <-] | []]]]; split; intros H;
    try (apply supplied_or_truthy, H);
    (eexists; split; [|apply supplied_or_falsy, H]).
  - specialize (B4 H). lia.
  - specialize (B5 H). lia.
  - specialize (B6 H). lia.
Qed.

(** A message whose three identifiers are present and are empty strings. *)
Lemma falsy_ids_replaced_example :
  exists resp st',
    a2aAgentRoute
      (serve (hello [("taskId", VStr ""); ("contextId", VStr ""); ("messageId", VStr "")])
             (plain_reply "ok"))
      initial_state = (Ok resp, st')
    /\ successful resp
    /\ fresh_uuid
         (serve (hello [("taskId", VStr ""); ("contextId", VStr ""); ("messageId", VStr "")])
                (plain_reply "ok"))
         initial_state st' (at_path (body resp) ["result"; "id"])
    /\ fresh_uuid
         (serve (hello [("taskId", VStr ""); ("contextId", VStr ""); ("messageId", VStr "")])
                (plain_reply "ok"))
         initial_state st' (at_path (body resp) ["result"; "contextId"])
    /\ fresh_uuid
         (serve (hello [("taskId", VStr ""); ("contextId", VStr ""); ("messageId", VStr "")])
                (plain_reply "ok"))
         initial_state st'
         (opt_prop (nth_item 0 (at_path (body resp) ["result"; "history"])) "messageId").
Proof.
  eexists _, _. split; [reflexivity|]. split; [reflexivity|].
  destruct (falsy_ids_replaced
              (serve (hello [("taskId", VStr ""); ("contextId", VStr "");
                             ("messageId", VStr "")])
                     (plain_reply "ok"))
              initial_state _ _ eq_refl eq_refl)
    as (rq & Hv & Hids).
  injection Hv as <-.
  split; [|split].
  - exact (proj1 (Hids "taskId" _ (or_introl eq_refl)) eq_refl).
  - exact (proj1 (Hids "contextId" _ (or_intror (or_introl eq_refl))) eq_refl).
  - exact (proj1 (Hids "messageId" _ (or_intror (or_intror (or_introl eq_refl)))) eq_refl).
Defined.

(** ** History *)

(** C2, as the handler has it.  In every successful response
    [result.history] has exactly two entries.  The first is the inbound
    message again: its role and parts, the resolved task id, and its own
    [messageId] when that is truthy, a fresh UUID otherwise.  The second is
    the agent's message: role "agent", one text part with the reply text (the
    empty string when the agent gave none), a fresh [messageId] and the same
    task id. *)
Theorem history_two_entries (env : Env) (st st' : State) (resp : Response) :
  a2aAgentRoute env st = (Ok resp, st') ->
  successful resp ->
  exists rq mm response messageId responseMessageId,
    validate env = Accepted rq
    /\ generate (rq_agent rq) (agent_calls st) [mm] = Ok response
    /\ at_path (body resp) ["result"; "history"]
       = VArr [VObj [("kind", VStr "message");
                     ("role", opt_prop (rq_message rq) "role");
                     ("parts", opt_prop (rq_message rq) "parts");
                     ("messageId", messageId);
                     ("taskId", at_path (body resp) ["result"; "id"])];
               VObj [("kind", VStr "message");
                     ("role", VStr "agent");
                     ("parts",
                       VArr [VObj [("kind", VStr "text");
                                   ("text", or_else (text response) (VStr ""))]]);
                     ("messageId", responseMessageId);
                     ("taskId", at_path (body resp) ["result"; "id"])]]
    /\ (truthy (opt_prop (rq_message rq) "messageId") = true ->
        messageId = opt_prop (rq_message rq) "messageId")
    /\ (truthy (opt_prop (rq_message rq) "messageId") = false ->
        fresh_uuid env st st' messageId)
    /\ fresh_uuid env st st' responseMessageId.
Proof.
  intros Hrun Hok.
  destruct (success_shape _ _ _ _ Hrun Hok)
    as (rq & mm & response & Hv & _ & Hgen & _ & Hb & Hn & _).
  pose proof (drawn_in_all_bounds rq (uuids_issued st) response) as Hbounds.
  cbv zeta in Hbounds. destruct Hbounds as (B1 & B2 & B3 & B4 & B5 & B6).
  eexists rq, mm, response, _, _.
  split; [exact Hv|]. split; [exact Hgen|].
  rewrite Hb. split; [reflexivity|].
  unfold fresh_uuid. rewrite Hn. repeat split.
  - intros H. apply supplied_or_truthy, H.
  - intros H. eexists. split; [|apply supplied_or_falsy, H].
    specialize (B6 H). lia.
  - eexists. split; [|reflexivity]. lia.
Qed.

(** A message with its own messageId "m-1" and task "T1", answered "ok": the
    history is the message with "m-1", then the reply under a fresh id. *)
Lemma history_two_entries_example :
  exists resp st',
    a2aAgentRoute
      (serve (hello [("messageId", VStr "m-1"); ("taskId", VStr "T1")]) (plain_reply "ok"))
      initial_state = (Ok resp, st')
    /\ successful resp
    /\ exists responseMessageId,
         at_path (body resp) ["result"; "history"]
         = VArr [VObj [("kind", VStr "message");
                       ("role", VStr "user");
                       ("parts", VArr [text_part "hi"]);
                       ("messageId", VStr "m-1");
                       ("taskId", VStr "T1")];
                 VObj [("kind", VStr "message");
                       ("role", VStr "agent");
                       ("parts", VArr [text_part "ok"]);
                       ("messageId", responseMessageId);
                       ("taskId", VStr "T1")]]
         /\ fresh_uuid
              (serve (hello [("messageId", VStr "m-1"); ("taskId", VStr "T1")])
                     (plain_reply "ok"))
              initial_state st' responseMessageId.
Proof.
  eexists _, _. split; [reflexivity|]. split; [reflexivity|].
  destruct (history_two_entries
              (serve (hello [("messageId", VStr "m-1"); ("taskId", VStr "T1")])
                     (plain_reply "ok"))
              initial_state _ _ eq_refl eq_refl)
    as (rq & mm & response & mid & rmid & Hv & Hgen & Hhist & Hkept & _ & Hfresh).
  injection Hv as <-. injection Hgen as <-.
  exists rmid. split; [|exact Hfresh].
  rewrite Hhist, (Hkept eq_refl). reflexivity.
Defined.

(** C2 as stated does not hold: an inbound message that has a messageId, the
    empty string, is not re-emitted with it. *)
Lemma empty_messageId_not_kept :
  exists resp st',
    a2aAgentRoute (serve (hello [("messageId", VStr "")]) (plain_reply "ok")) initial_state
    = (Ok resp, st')
    /\ status resp = 200%Z
    /\ has_key "messageId" [("kind", VStr "message"); ("role", VStr "user");
                            ("parts", VArr [text_part "hi"]); ("messageId", VStr "")]
       = true
    /\ opt_prop (hello [("messageId", VStr "")]) "messageId" = VStr ""
    /\ opt_prop (nth_item 0 (at_path (body resp) ["result"; "history"])) "messageId"
       = VStr "uuid-3"
    /\ opt_prop (nth_item 0 (at_path (body resp) ["result"; "history"])) "messageId"
       <> VStr "".
Proof.
  eexists _, _. repeat split; discriminate.
Qed.

(** ** Artifacts *)

(** C3, as the handler has it.  In every successful response whose agent
    answer carries N tool results, [result.artifacts] has N entries, one per
    tool result in order: each has an artifactId drawn freshly, all of them
    distinct as long as [randomUUID] does not repeat itself, one data part
    wrapping the raw result, and as name the tool result's name when that is
    truthy, "ToolResult" otherwise.  With no tool results the artifacts are
    the empty sequence, present all the same. *)
Theorem artifacts_per_tool_result (env : Env) (st st' : State) (resp : Response) :
  (forall a b, uuid_source env a = uuid_source env b -> a = b) ->
  a2aAgentRoute env st = (Ok resp, st') ->
  successful resp ->
  exists rq mm response ids,
    validate env = Accepted rq
    /\ generate (rq_agent rq) (agent_calls st) [mm] = Ok response
    /\ length ids = length (tool_results response)
    /\ NoDup ids
    /\ Forall (fresh_uuid env st st') ids
    /\ at_path (body resp) ["result"; "artifacts"]
       = VArr (map (fun id_and_result =>
                      VObj [("artifactId", fst id_and_result);
                            ("name", or_else (opt_prop (snd id_and_result) "name")
                                             (VStr "ToolResult"));
                            ("parts", VArr [VObj [("kind", VStr "data");
                                                  ("data", snd id_and_result)]])])
                   (combine ids (tool_results response)))
    /\ (tool_results response = [] ->
        at_path (body resp) ["result"; "artifacts"] = VArr []).
Proof.
  intros Hinj Hrun Hok.
  destruct (success_shape _ _ _ _ Hrun Hok)
    as (rq & mm & response & Hv & _ & Hgen & _ & Hb & Hn & _).
  pose proof (drawn_in_all_bounds rq (uuids_issued st) response) as Hbounds.
  cbv zeta in Hbounds. destruct Hbounds as (B1 & B2 & B3 & _).
  set (n2 := drawn_after (opt_prop (rq_message rq) "contextId")
               (drawn_after (opt_prop (rq_message rq) "taskId") (uuids_issued st))) in *.
  exists rq, mm, response,
    (map (fun k => VStr (uuid_source env k)) (seq (S n2) (length (tool_results response)))).
  split; [exact Hv|]. split; [exact Hgen|].
  split; [rewrite length_map, length_seq; reflexivity|].
  split.
  { apply Injective_map_NoDup; [|apply seq_NoDup].
    intros a b [= H]. apply Hinj, H. }
  split.
  { apply Forall_forall. intros id Hin. apply in_map_iff in Hin.
    destruct Hin as (k & <- & Hk). apply in_seq in Hk.
    exists k. split; [|reflexivity]. rewrite Hn. lia. }
  assert (Harts : at_path (body resp) ["result"; "artifacts"]
                  = VArr (artifacts_from env (S n2) (tool_results response))).
  { rewrite Hb. reflexivity. }
  split.
  - rewrite Harts, artifacts_from_ids. reflexivity.
  - intros Hnone. rewrite Harts, Hnone. reflexivity.
Qed.

(** An answer with two tool results, the second without a name. *)
Lemma artifacts_per_tool_result_example :
  exists resp st',
    a2aAgentRoute
      (serve (hello [])
             (tool_reply "done" [VObj [("name", VStr "search"); ("hits", VNum 3)];
                                 VObj [("hits", VNum 0)]]))
      initial_state = (Ok resp, st')
    /\ successful resp
    /\ exists id1 id2,
         id1 <> id2
         /\ at_path (body resp) ["result"; "artifacts"]
            = VArr [VObj [("artifactId", id1);
                          ("name", VStr "search");
                          ("parts",
                            VArr [data_part (VObj [("name", VStr "search");
                                                   ("hits", VNum 3)])])];
                    VObj [("artifactId", id2);
                          ("name", VStr "ToolResult");
                          ("parts", VArr [data_part (VObj [("hits", VNum 0)])])]].
Proof.
  eexists _, _. split; [reflexivity|]. split; [reflexivity|].
  destruct (artifacts_per_tool_result
              (serve (hello [])
                     (tool_reply "done" [VObj [("name", VStr "search"); ("hits", VNum 3)];
                                         VObj [("hits", VNum 0)]]))
              initial_state _ _ sample_uuid_injective eq_refl eq_refl)
    as (rq & mm & response & ids & Hv & Hgen & Hlen & Hnodup & _ & Harts & _).
  injection Hv as <-. injection Hgen as <-.
  destruct ids as [|id1 [|id2 [|id3 rest]]]; try discriminate Hlen.
  exists id1, id2. split.
  - inversion Hnodup as [|x l Hnotin _]. subst.
    intros Heq. apply Hnotin. left. symmetry. exact Heq.
  - rewrite Harts. reflexivity.
Defined.

(** C3 as stated does not hold: a tool result that has a name, the empty
    string, does not give its name to the artifact. *)
Lemma empty_tool_name_not_kept :
  exists resp st',
    a2aAgentRoute
      (serve (hello []) (tool_reply "done" [VObj [("name", VStr ""); ("hits", VNum 3)]]))
      initial_state = (Ok resp, st')
    /\ status resp = 200%Z
    /\ has_key "name" [("name", VStr ""); ("hits", VNum 3)] = true
    /\ opt_prop (VObj [("name", VStr ""); ("hits", VNum 3)]) "name" = VStr ""
    /\ opt_prop (nth_item 0 (at_path (body resp) ["result"; "artifacts"])) "name"
       = VStr "ToolResult"
    /\ opt_prop (nth_item 0 (at_path (body resp) ["result"; "artifacts"])) "name"
       <> VStr "".
Proof.
  eexists _, _. repeat split; discriminate.
Qed.

(** * More of the handler *)

(** ** How [answer] and [assemble] run *)

Lemma get_prop_throws (v : value) (key : string) (e : exn) :
  get_prop v key = Throw e -> e = TypeError (NullishAccess v key) /\ nullish v = true.
Proof.
  unfold get_prop. destruct (nullish v); [|discriminate].
  intros [= <-]. split; reflexivity.
Qed.

Lemma part_content_throws (env : Env) (part : value) (e : exn) :
  part_content env part = Throw e -> exists t, e = TypeError t.
Proof.
  unfold part_content, obind.
  destruct (get_prop part "kind") as [kind|e0] eqn:Hk.
  - apply get_prop_inv in Hk. destruct Hk as [Hnull _].
    rewrite !(get_prop_ok _ _ Hnull).
    destruct (is_string kind "text"); [discriminate|].
    destruct (is_string kind "data"); discriminate.
  - apply get_prop_throws in Hk. destruct Hk as [-> _].
    intros [= <-]. eexists. reflexivity.
Qed.

Lemma array_map_throws (env : Env) (items : list value) (e : exn) :
  array_map (part_content env) items = Throw e -> exists t, e = TypeError t.
Proof.
  induction items as [|x rest IH]; simpl; [discriminate|].
  unfold obind.
  destruct (part_content env x) as [y|e0] eqn:Hx.
  - destruct (array_map (part_content env) rest) as [ys|e1]; [discriminate|].
    intros [= <-]. apply IH. reflexivity.
  - intros [= <-]. apply (part_content_throws _ _ _ Hx).
Qed.

Lemma join_items_throws (show : number -> string) (items : list value) (e : exn) :
  join_items show items = Throw e -> e = TypeError NoPrimitive.
Proof.
  induction items as [|x rest IH]; simpl; [discriminate|].
  unfold join_item. destruct (nullish x).
  - destruct (join_items show rest) as [ss|e1]; [discriminate|].
    intros [= <-]. apply IH. reflexivity.
  - destruct (to_string show x) as [s|e0] eqn:Hx.
    + destruct (join_items show rest) as [ss|e1]; [discriminate|].
      intros [= <-]. apply IH. reflexivity.
    + intros [= <-]. apply (to_string_throws _ _ _ Hx).
Qed.

(** The translation fails with errors of the engine only. *)
Lemma mastraMessage_throws (env : Env) (message : value) (e : exn) :
  mastraMessage env message = Throw e -> exists t, e = TypeError t.
Proof.
  unfold mastraMessage, obind.
  destruct (get_prop message "role") as [r|e0] eqn:Hr.
  2:{ apply get_prop_throws in Hr. destruct Hr as [-> _].
      intros [= <-]. eexists. reflexivity. }
  destruct (get_prop message "parts") as [parts|e0] eqn:Hp.
  2:{ apply get_prop_throws in Hp. destruct Hp as [-> _].
      intros [= <-]. eexists. reflexivity. }
  destruct (parts_map env parts) as [mapped|e0] eqn:Hm.
  - unfold array_join.
    destruct (join_items (number_to_string env) mapped) as [ss|e1] eqn:Hj; [discriminate|].
    intros [= <-]. apply join_items_throws in Hj. subst e1. eexists. reflexivity.
  - intros [= <-]. unfold parts_map in Hm.
    destruct parts; try (injection Hm as <-; eexists; reflexivity).
    apply (array_map_throws _ _ _ Hm).
Qed.

Lemma ids_settled_state (message : value) (st : State) :
  uuids_issued (ids_settled message st)
  = drawn_after (opt_prop message "contextId")
      (drawn_after (opt_prop message "taskId") (uuids_issued st))
  /\ requestId (ids_settled message st) = requestId st
  /\ agent_calls (ids_settled message st) = agent_calls st
  /\ console (ids_settled message st) = console st.
Proof.
  unfold ids_settled, drawn_after.
  destruct (truthy (opt_prop message "taskId")),
    (truthy (opt_prop message "contextId")); simpl; auto.
Qed.

(** [answer], step by step: the translation, then the agent, then the
    assembly, the first failure ending it. *)
Lemma answer_unfold (env : Env) (agent : Agent) (message cfg : value) (st : State) :
  truthy message = true ->
  answer env agent message cfg st
  = match mastraMessage env message with
    | Throw e => (Throw e, ids_settled message st)
    | Ok mm =>
        match generate agent (agent_calls st) [mm] with
        | Throw e => (Throw e, with_call [mm] (ids_settled message st))
        | Ok response =>
            assemble env message cfg
              (supplied_or env (opt_prop message "taskId") (uuids_issued st))
              (supplied_or env (opt_prop message "contextId")
                 (drawn_after (opt_prop message "taskId") (uuids_issued st)))
              response (with_call [mm] (ids_settled message st))
        end
    end.
Proof.
  intros Hm. unfold answer.
  rewrite !(get_prop_truthy _ _ Hm).
  unfold bind at 1 2 3 4 5. unfold lift at 1 2 3.
  rewrite !or_randomUUID_run.
  destruct (ids_settled_state message st) as (_ & _ & Hc & _).
  unfold ids_settled in *. cbv zeta in *.
  destruct (mastraMessage env message) as [mm|e]; [|reflexivity].
  unfold bind, agent_generate. rewrite Hc.
  destruct (generate agent (agent_calls st) [mm]) as [response|e]; [|reflexivity].
  unfold drawn_after.
  destruct (truthy (opt_prop message "taskId")); reflexivity.
Qed.

Lemma non_blocking_stub_state (configuration : value) (st : State) :
  exists st',
    non_blocking_stub configuration st = (Ok tt, st')
    /\ console st' = (console st ++ webhook_log configuration)%list
    /\ uuids_issued st' = uuids_issued st
    /\ requestId st' = requestId st
    /\ agent_calls st' = agent_calls st.
Proof.
  unfold non_blocking_stub, webhook_log.
  destruct (is_false _); [destruct (truthy _)|]; simpl;
    eexists; (split; [reflexivity|]); simpl; rewrite ?app_nil_r; auto.
Qed.

Lemma push_artifacts_run (env : Env) (results acc : list value) (st : State) :
  existsb nullish results = false ->
  exists arts st',
    push_artifacts env results acc st = (Ok arts, st')
    /\ console st' = console st.
Proof.
  revert acc st. induction results as [|r rest IH]; intros acc st; simpl.
  - intros _. eexists _, _. split; reflexivity.
  - intros H. apply orb_false_elim in H. destruct H as [Hr Hrest].
    unfold bind, randomUUID, lift. rewrite (get_prop_ok _ _ Hr).
    destruct (IH (acc ++ [VObj [("artifactId", VStr (uuid_source env (uuids_issued st)));
                                ("name", or_else (opt_prop r "name") (VStr "ToolResult"));
                                ("parts", VArr [VObj [("kind", VStr "data"); ("data", r)]])]])%list
                 (with_uuid_drawn st) Hrest) as (arts & st' & Hrun & Hc).
    exists arts, st'. split; [exact Hrun | exact Hc].
Qed.

Lemma push_artifacts_fails (env : Env) (results acc : list value) (st : State) :
  existsb nullish results = true ->
  exists t st',
    push_artifacts env results acc st = (Throw (TypeError t), st')
    /\ console st' = console st.
Proof.
  revert acc st. induction results as [|r rest IH]; intros acc st; simpl.
  - discriminate.
  - intros H. unfold bind, randomUUID, lift.
    destruct (nullish r) eqn:Hr.
    + unfold get_prop. rewrite Hr. eexists _, _. split; reflexivity.
    + rewrite (get_prop_ok _ _ Hr). simpl in H.
      destruct (IH (acc ++ [VObj [("artifactId", VStr (uuid_source env (uuids_issued st)));
                                  ("name", or_else (opt_prop r "name") (VStr "ToolResult"));
                                  ("parts", VArr [VObj [("kind", VStr "data"); ("data", r)]])]])%list
                   (with_uuid_drawn st) H) as (t & st' & Hrun & Hc).
      exists t, st'. split; [exact Hrun | exact Hc].
Qed.

Lemma build_artifacts_run (env : Env) (response : GenerateResult) (st : State) :
  if existsb nullish (tool_results response)
  then exists t st',
         build_artifacts env response st = (Throw (TypeError t), st')
         /\ console st' = console st
  else exists arts st',
         build_artifacts env response st = (Ok arts, st')
         /\ console st' = console st.
Proof.
  unfold build_artifacts, tool_results.
  destruct (toolResults response) as [[|r rs]|].
  - simpl. eexists _, _. split; reflexivity.
  - destruct (existsb nullish (r :: rs)) eqn:H.
    + apply push_artifacts_fails, H.
    + apply push_artifacts_run, H.
  - simpl. eexists _, _. split; reflexivity.
Qed.

Lemma bind_run {A B} (m : M A) (k : A -> M B) (st st1 : State) (a : A) :
  m st = (Ok a, st1) -> bind m k st = k a st1.
Proof. unfold bind. intros ->. reflexivity. Qed.

Lemma bind_fail {A B} (m : M A) (k : A -> M B) (st st1 : State) (e : exn) :
  m st = (Throw e, st1) -> bind m k st = (Throw e, st1).
Proof. unfold bind. intros ->. reflexivity. Qed.

Lemma bind_lift_ok {A B} (a : A) (k : A -> M B) (st : State) :
  bind (lift (Ok a)) k st = k a st.
Proof. reflexivity. Qed.

Lemma bind_randomUUID {B} (env : Env) (k : value -> M B) (st : State) :
  bind (randomUUID env) k st
  = k (VStr (uuid_source env (uuids_issued st))) (with_uuid_drawn st).
Proof. reflexivity. Qed.

Lemma bind_get_requestId {B} (k : value -> M B) (st : State) :
  bind get_requestId k st = k (requestId st) st.
Proof. reflexivity. Qed.

Lemma build_history_run (env : Env) (message tid txt rmid : value) (st : State) :
  truthy message = true ->
  build_history env message tid txt rmid st
  = (Ok (history_of message tid txt rmid
           (supplied_or env (opt_prop message "messageId") (uuids_issued st))),
     if truthy (opt_prop message "messageId") then st else with_uuid_drawn st).
Proof.
  intros Hm. unfold build_history. rewrite !(get_prop_truthy _ _ Hm).
  rewrite !bind_lift_ok.
  rewrite (bind_run _ _ _ _ _ (or_randomUUID_run env _ st)).
  reflexivity.
Qed.

(** The assembly succeeds unless a tool result is null or undefined; all it
    leaves on the console is what the configuration asks for. *)
Lemma assemble_run (env : Env) (message cfg tid cid : value) (response : GenerateResult)
  (st : State) :
  truthy message = true ->
  if existsb nullish (tool_results response)
  then exists t st',
         assemble env message cfg tid cid response st = (Throw (TypeError t), st')
         /\ console st' = console st
  else exists resp st',
         assemble env message cfg tid cid response st = (Ok resp, st')
         /\ console st' = (console st ++ webhook_log cfg)%list.
Proof.
  intros Hm.
  pose proof (build_artifacts_run env response (with_uuid_drawn st)) as Hb.
  destruct (existsb nullish (tool_results response)).
  - destruct Hb as (t & st1 & Hrun & Hc).
    exists t, st1. unfold assemble.
    rewrite bind_randomUUID.
    rewrite (bind_fail _ _ _ _ _ Hrun). split; [reflexivity | exact Hc].
  - destruct Hb as (arts & st1 & Hrun & Hc).
    set (st2 := if truthy (opt_prop message "messageId") then st1 else with_uuid_drawn st1).
    assert (Hc2 : console st2 = console st).
    { unfold st2. destruct (truthy (opt_prop message "messageId")); simpl; exact Hc. }
    destruct (non_blocking_stub_state cfg st2) as (st3 & Hnb & Hc3 & _).
    eexists _, st3. unfold assemble.
    rewrite bind_randomUUID.
    rewrite (bind_run _ _ _ _ _ Hrun).
    rewrite (bind_run _ _ _ _ _ (build_history_run env _ _ _ _ st1 Hm)).
    fold st2.
    rewrite bind_get_requestId.
    rewrite (bind_run _ _ _ _ _ Hnb).
    split; [reflexivity|]. rewrite Hc3, Hc2. reflexivity.
Qed.

Lemma catch_block_run (env : Env) (e : exn) (details : value) (st : State) :
  error_message env e = Ok details ->
  catch_block env e st
  = (Ok (c_json (internal_error_response (requestId st) details) 500),
     with_log (LogRouteError e) st).
Proof.
  intros Hd. unfold catch_block, bind, console_write, get_requestId, lift, ret. simpl.
  rewrite Hd. reflexivity.
Qed.

Lemma error_message_readable (env : Env) (e : exn) :
  readable_error e = true -> exists details, error_message env e = Ok details.
Proof.
  destruct e as [t|m|v]; simpl; intros H; try (eexists; reflexivity).
  apply negb_true_iff in H. rewrite (get_prop_ok _ _ H). eexists. reflexivity.
Qed.

(** ** The three ways of a request, in full *)

Lemma accepted_id (env : Env) (rq : Request) :
  validate env = Accepted rq ->
  rq_id rq = request_id env /\ or_else (request_id env) VNull = rq_id rq.
Proof.
  intros Hv. destruct (accepted_message_truthy _ _ Hv) as (_ & _ & _ & _ & _ & Hid).
  assert (H : rq_id rq = request_id env).
  { unfold validate, request_id in *.
    destruct (req_json env) as [body_|e]; [|discriminate].
    destruct (nullish body_); [discriminate|].
    destruct (negb _ || negb _); [discriminate|].
    destruct (negb _); [discriminate|].
    destruct (getAgent env (req_param_agentId env)) as [[agent|]|e]; try discriminate.
    cbv zeta in Hv.
    destruct (negb _ || negb _); [discriminate|].
    destruct (negb _ || negb _ || negb _); [discriminate|].
    injection Hv as <-. reflexivity. }
  split; [exact H|]. rewrite <- H. unfold or_else. rewrite Hid. reflexivity.
Qed.

(** An accepted request: the translation fails, or the agent fails, or a
    tool result cannot be read, each ending in the [catch] block with the
    request's id; or the response is the success in closed form. *)
Lemma route_accepted_cases (env : Env) (rq : Request) (st : State) :
  validate env = Accepted rq ->
  match mastraMessage env (rq_message rq) with
  | Throw e =>
      (exists t, e = TypeError t)
      /\ exists st1,
           a2aAgentRoute env st = catch_block env e st1
           /\ requestId st1 = rq_id rq
           /\ agent_calls st1 = agent_calls st
           /\ console st1 = console st
  | Ok mm =>
      match generate (rq_agent rq) (agent_calls st) [mm] with
      | Throw e =>
          exists st1,
            a2aAgentRoute env st = catch_block env e st1
            /\ requestId st1 = rq_id rq
            /\ agent_calls st1 = (agent_calls st ++ [[mm]])%list
            /\ console st1 = console st
      | Ok response =>
          if existsb nullish (tool_results response)
          then exists t st1,
                 a2aAgentRoute env st = catch_block env (TypeError t) st1
                 /\ requestId st1 = rq_id rq
                 /\ agent_calls st1 = (agent_calls st ++ [[mm]])%list
                 /\ console st1 = console st
          else exists st',
                 a2aAgentRoute env st
                 = (Ok (c_json (task_body env rq (uuids_issued st) response) 200), st')
                 /\ console st' = (console st ++ webhook_log (rq_configuration rq))%list
                 /\ agent_calls st' = (agent_calls st ++ [[mm]])%list
                 /\ uuids_issued st' = drawn_in_all rq (uuids_issued st) response
      end
  end.
Proof.
  intros Hv.
  destruct (accepted_message_truthy _ _ Hv) as (Hm & _).
  rewrite (route_accepted _ _ _ Hv). unfold try_catch.
  set (st0 := with_requestId (rq_id rq) st).
  pose proof (answer_unfold env (rq_agent rq) (rq_message rq) (rq_configuration rq) st0 Hm)
    as Hun.
  destruct (ids_settled_state (rq_message rq) st0) as (Hn & Hr & Hc & Hl).
  simpl in Hn, Hr, Hc, Hl.
  destruct (mastraMessage env (rq_message rq)) as [mm|e] eqn:Hmm.
  - change (agent_calls st0) with (agent_calls st) in Hun.
    destruct (generate (rq_agent rq) (agent_calls st) [mm]) as [response|e] eqn:Hgen.
    + pose proof (assemble_run env (rq_message rq) (rq_configuration rq)
                    (supplied_or env (opt_prop (rq_message rq) "taskId") (uuids_issued st0))
                    (supplied_or env (opt_prop (rq_message rq) "contextId")
                       (drawn_after (opt_prop (rq_message rq) "taskId") (uuids_issued st0)))
                    response (with_call [mm] (ids_settled (rq_message rq) st0)) Hm) as Has.
      pose proof (quiet_assemble env (rq_message rq) (rq_configuration rq)
                    (supplied_or env (opt_prop (rq_message rq) "taskId") (uuids_issued st0))
                    (supplied_or env (opt_prop (rq_message rq) "contextId")
                       (drawn_after (opt_prop (rq_message rq) "taskId") (uuids_issued st0)))
                    response (with_call [mm] (ids_settled (rq_message rq) st0))) as Hq.
      destruct (existsb nullish (tool_results response)).
      * destruct Has as (t & st1 & Hrun & Hcon).
        rewrite <- Hun in Hrun. rewrite <- Hun in Hq. rewrite Hrun in Hq.
        destruct Hq as (Hq1 & Hq2 & _). simpl in Hq1, Hq2, Hcon.
        exists t, st1. rewrite Hrun.
        repeat split; [congruence | congruence | congruence].
      * destruct Has as (resp & st' & Hrun & Hcon).
        rewrite <- Hun in Hrun. rewrite Hrun.
        pose proof (answer_ok env rq st0 st' resp Hm Hrun) as Hok.
        destruct Hok as (mm' & response' & Hmm' & Hgen' & _ & Hresp & Hn' & Hcalls).
        rewrite Hmm in Hmm'. injection Hmm' as <-.
        change (agent_calls st0) with (agent_calls st) in Hgen', Hcalls.
        rewrite Hgen in Hgen'. injection Hgen' as <-.
        simpl in Hcon, Hn', Hresp.
        exists st'. rewrite Hresp. destruct rq; simpl in *.
        repeat split; [congruence | exact Hcalls | exact Hn'].
    + exists (with_call [mm] (ids_settled (rq_message rq) st0)).
      rewrite Hun. simpl. repeat split; congruence.
  - split; [apply (mastraMessage_throws _ _ _ Hmm)|].
    exists (ids_settled (rq_message rq) st0).
    rewrite Hun. repeat split; assumption.
Qed.

(** A failure before validation is over: where it comes from, and which id
    the [catch] block finds. *)
Lemma route_failed_cases (env : Env) (e : exn) (st : State) :
  validate env = Failed e ->
  a2aAgentRoute env st
  = catch_block env e (with_requestId (or_else (request_id env) VNull) st)
  /\ (req_json env = Throw e
      \/ (exists t, e = TypeError t)
      \/ getAgent env (req_param_agentId env) = Throw e).
Proof.
  unfold validate, request_id. intros H.
  unfold a2aAgentRoute, try_block, try_catch, bind, lift, ret, set_requestId,
    get_requestId; simpl.
  destruct (req_json env) as [body_|e0] eqn:Hbody.
  2:{ injection H as <-. split; [reflexivity | left; reflexivity]. }
  destruct (nullish body_) eqn:Hnull.
  { injection H as <-. unfold get_prop. rewrite Hnull.
    split; [|right; left; eexists; reflexivity].
    destruct body_; try discriminate; reflexivity. }
  rewrite !(get_prop_ok _ _ Hnull). simpl.
  destruct (negb (is_string (opt_prop body_ "jsonrpc") "2.0")
            || negb (truthy (opt_prop body_ "id"))) eqn:Henv; [discriminate|].
  destruct (negb (is_string (opt_prop body_ "method") "message/send")) eqn:Hmeth;
    [discriminate|].
  destruct (getAgent env (req_param_agentId env)) as [[agent|]|e0] eqn:Hagent;
    try discriminate.
  - cbv zeta in H.
    destruct (negb (truthy _) || negb (typeof_object _)); [discriminate|].
    destruct (negb (is_string _ "message") || _ || _); discriminate.
  - injection H as <-.
    apply orb_false_elim in Henv. destruct Henv as [_ Hid].
    apply negb_false_iff in Hid. unfold or_else. rewrite Hid.
    split; [reflexivity | right; right; reflexivity].
Qed.

(** A rejected request: the error response in full, under the request's id
    (null when the request has none), the state untouched but for
    [requestId]; or, for a method with no string form, the [catch] block. *)
Lemma route_rejected_cases (env : Env) (why : rejection) (st : State) :
  validate env = Rejected why ->
  (exists message,
     a2aAgentRoute env st
     = (Ok (c_json (error_response (or_else (request_id env) VNull)
                      (rejection_code why) message)
                   (rejection_status why)),
        with_requestId (request_id env) st))
  \/ (why = MethodNotFound
      /\ a2aAgentRoute env st
         = catch_block env (TypeError NoPrimitive)
             (with_requestId (or_else (request_id env) VNull) st)).
Proof.
  unfold validate, request_id. intros H.
  unfold a2aAgentRoute, try_block, try_catch, bind, lift, ret, set_requestId,
    get_requestId; simpl.
  destruct (req_json env) as [body_|e0] eqn:Hbody; [|discriminate].
  destruct (nullish body_) eqn:Hnull; [discriminate|].
  rewrite !(get_prop_ok _ _ Hnull). simpl.
  destruct (negb (is_string (opt_prop body_ "jsonrpc") "2.0")
            || negb (truthy (opt_prop body_ "id"))) eqn:Henv.
  { injection H as <-. left. eexists. reflexivity. }
  assert (Hid : or_else (opt_prop body_ "id") VNull = opt_prop body_ "id").
  { apply orb_false_elim in Henv. destruct Henv as [_ Hid].
    apply negb_false_iff in Hid. unfold or_else. rewrite Hid. reflexivity. }
  rewrite Hid.
  destruct (negb (is_string (opt_prop body_ "method") "message/send")) eqn:Hmeth.
  { injection H as <-.
    destruct (to_string (number_to_string env) (opt_prop body_ "method")) as [shown|e] eqn:Hshow.
    - left. eexists. reflexivity.
    - apply to_string_throws in Hshow. subst e. right. split; reflexivity. }
  destruct (getAgent env (req_param_agentId env)) as [[agent|]|e0] eqn:Hagent;
    try discriminate.
  2:{ injection H as <-. left. eexists. reflexivity. }
  cbv zeta in H.
  pose proof (or_else_object_truthy (opt_prop body_ "params")) as Hparams.
  set (params' := or_else (opt_prop body_ "params") (VObj [])) in *.
  rewrite !(get_prop_truthy _ _ Hparams).
  destruct (negb (truthy (opt_prop params' "message"))
            || negb (typeof_object (opt_prop params' "message"))) eqn:Hmsg.
  { injection H as <-. left. eexists. reflexivity. }
  assert (Hm : truthy (opt_prop params' "message") = true).
  { apply orb_false_elim in Hmsg. destruct Hmsg as [Hm _].
    apply negb_false_iff in Hm. exact Hm. }
  rewrite !(get_prop_truthy _ _ Hm).
  destruct (negb (is_string (opt_prop (opt_prop params' "message") "kind") "message")
            || negb (truthy (opt_prop (opt_prop params' "message") "role"))
            || negb (truthy (opt_prop (opt_prop params' "message") "parts"))) eqn:Hshape;
    [|discriminate].
  injection H as <-. left. eexists. reflexivity.
Qed.

Lemma accepted_agent (env : Env) (rq : Request) :
  validate env = Accepted rq ->
  getAgent env (req_param_agentId env) = Ok (Some (rq_agent rq)).
Proof.
  unfold validate. intros Hv.
  destruct (req_json env) as [body_|e]; [|discriminate].
  destruct (nullish body_); [discriminate|].
  destruct (negb _ || negb _); [discriminate|].
  destruct (negb _); [discriminate|].
  destruct (getAgent env (req_param_agentId env)) as [[agent|]|e]; try discriminate.
  cbv zeta in Hv.
  destruct (negb _ || negb _); [discriminate|].
  destruct (negb _ || negb _ || negb _); [discriminate|].
  injection Hv as <-. reflexivity.
Qed.

Lemma unreadable_parts_throw (env : Env) (message : value) :
  truthy message = true ->
  parts_readable env (opt_prop message "parts") = false ->
  exists t, mastraMessage env message = Throw (TypeError t).
Proof.
  intros Hm Hparts.
  destruct (opt_prop message "parts") as [| | | | |parts|] eqn:Hp;
    try (exists (NotAFunction "map"); apply mastraMessage_no_array;
         [exact Hm | intros parts; congruence]).
  simpl in Hparts.
  pose proof (mastraMessage_translation env _ _ Hm Hp) as Ht. rewrite Hparts in Ht.
  destruct Ht as (e & He).
  destruct (mastraMessage_throws _ _ _ He) as (t & ->).
  exists t. exact He.
Qed.

Lemma forall_not_nullish (results : list value) :
  Forall (fun r => nullish r = false) results -> existsb nullish results = false.
Proof.
  induction 1 as [|r rest Hr _ IH]; simpl; [reflexivity|].
  rewrite Hr, IH. reflexivity.
Qed.

Lemma artifact_ids_from (env : Env) (n : nat) (results : list value) :
  artifact_ids (VArr (artifacts_from env n results))
  = map (fun k => VStr (uuid_source env k)) (seq n (length results)).
Proof.
  simpl. revert n. induction results as [|r rest IH]; intros n; simpl; [reflexivity|].
  rewrite IH. reflexivity.
Qed.

(** The [catch] block fails in one way only: reading [message] off a thrown
    null or undefined, after the error has been logged. *)
Lemma catch_block_throws (env : Env) (e e' : exn) (st st' : State) :
  catch_block env e st = (Throw e', st') ->
  exists v,
    e = Thrown v /\ nullish v = true
    /\ e' = TypeError (NullishAccess v "message")
    /\ st' = with_log (LogRouteError e) st.
Proof.
  unfold catch_block, bind, console_write, get_requestId, lift, ret. simpl.
  destruct e as [t|m|v]; simpl; try discriminate.
  unfold get_prop. destruct (nullish v) eqn:Hn; [|discriminate].
  intros [= <- <-]. exists v. repeat split. exact Hn.
Qed.

(** When the [catch] block answers, it is with status 500, after one line
    written to the console and nothing else. *)
Lemma catch_block_answer (env : Env) (e : exn) (st st' : State) (resp : Response) :
  catch_block env e st = (Ok resp, st') ->
  status resp = 500%Z
  /\ console st' = (console st ++ [LogRouteError e])%list
  /\ agent_calls st' = agent_calls st
  /\ uuids_issued st' = uuids_issued st.
Proof.
  intros H. apply catch_block_ok in H. destruct H as (d & _ & -> & ->).
  repeat split.
Qed.


(** * Further properties of the handler *)

(** ** The three early rejections *)

(** X1. A body whose [jsonrpc] is not "2.0" or whose [id] is falsy is
    answered with status 400 and code -32600, whatever else it holds and
    whatever the registry would say; the response carries the request's id
    when that is truthy and null otherwise.  Nothing but [requestId]
    changes. *)
Theorem invalid_envelope_response (env : Env) (body_ : value) (st : State) :
  req_json env = Ok body_ ->
  nullish body_ = false ->
  negb (is_string (opt_prop body_ "jsonrpc") "2.0")
  || negb (truthy (opt_prop body_ "id")) = true ->
  a2aAgentRoute env st
  = (Ok (c_json
           (error_response (or_else (opt_prop body_ "id") VNull) (-32600)
              ("Invalid Request: jsonrpc must be " ++ dq ++ "2.0" ++ dq
               ++ " and id is required"))
           400),
     with_requestId (opt_prop body_ "id") st).
Proof.
  intros Hbody Hnull Hbad.
  unfold a2aAgentRoute, try_block, try_catch, bind, lift, ret, set_requestId,
    get_requestId; simpl.
  rewrite Hbody. rewrite !(get_prop_ok _ _ Hnull). simpl.
  rewrite Hbad. reflexivity.
Qed.

(** A version "1.0" under the id 7, and a request without id. *)
Lemma invalid_envelope_response_example :
  fst (a2aAgentRoute
         (sample_env (Ok (VObj [("jsonrpc", VStr "1.0"); ("id", VNum 7);
                                ("method", VStr "message/send")]))
                     (plain_reply "ok"))
         initial_state)
  = Ok (c_json
          (error_response (VNum 7) (-32600)
             ("Invalid Request: jsonrpc must be " ++ dq ++ "2.0" ++ dq
              ++ " and id is required"))
          400)
  /\ fst (a2aAgentRoute
            (sample_env (Ok (VObj [("jsonrpc", VStr "2.0");
                                   ("method", VStr "message/send")]))
                        (plain_reply "ok"))
            initial_state)
     = Ok (c_json
             (error_response VNull (-32600)
                ("Invalid Request: jsonrpc must be " ++ dq ++ "2.0" ++ dq
                 ++ " and id is required"))
             400).
Proof.
  split.
  - exact (f_equal fst
             (invalid_envelope_response
                (sample_env (Ok (VObj [("jsonrpc", VStr "1.0"); ("id", VNum 7);
                                       ("method", VStr "message/send")]))
                            (plain_reply "ok"))
                _ initial_state eq_refl eq_refl eq_refl)).
  - exact (f_equal fst
             (invalid_envelope_response
                (sample_env (Ok (VObj [("jsonrpc", VStr "2.0");
                                       ("method", VStr "message/send")]))
                            (plain_reply "ok"))
                _ initial_state eq_refl eq_refl eq_refl)).
Defined.

(** X2. With a sound envelope, a method other than "message/send" is
    answered with status 400 and code -32601 under the request's id, the
    error message quoting the method as a string, whatever the params and the
    registry.  A method that has no string form ends in the [catch] block,
    with status 500. *)
Theorem wrong_method_response (env : Env) (body_ : value) (st : State) :
  req_json env = Ok body_ ->
  nullish body_ = false ->
  is_string (opt_prop body_ "jsonrpc") "2.0" = true ->
  truthy (opt_prop body_ "id") = true ->
  is_string (opt_prop body_ "method") "message/send" = false ->
  a2aAgentRoute env st
  = match to_string (number_to_string env) (opt_prop body_ "method") with
    | Ok shown =>
        (Ok (c_json
               (error_response (opt_prop body_ "id") (-32601)
                  ("Invalid method: expected " ++ dq ++ "message/send" ++ dq
                   ++ ", got " ++ dq ++ shown ++ dq))
               400),
         with_requestId (opt_prop body_ "id") st)
    | Throw e =>
        (Ok (c_json
               (internal_error_response (opt_prop body_ "id")
                  (VStr (type_error_message env NoPrimitive)))
               500),
         with_log (LogRouteError (TypeError NoPrimitive))
           (with_requestId (opt_prop body_ "id") st))
    end.
Proof.
  intros Hbody Hnull Hrpc Hid Hmeth.
  unfold a2aAgentRoute, try_block, try_catch, bind, lift, ret, set_requestId,
    get_requestId; simpl.
  rewrite Hbody. rewrite !(get_prop_ok _ _ Hnull). simpl.
  rewrite Hrpc, Hid, Hmeth. simpl.
  destruct (to_string (number_to_string env) (opt_prop body_ "method"))
    as [shown|e] eqn:Hshow.
  - reflexivity.
  - apply to_string_throws in Hshow. subst e. reflexivity.
Qed.

(** The blog's request, whose method is "generate". *)
Lemma wrong_method_response_example :
  fst (a2aAgentRoute
         (sample_env (Ok (VObj [("jsonrpc", VStr "2.0"); ("id", VStr "123");
                                ("method", VStr "generate")]))
                     (plain_reply "ok"))
         initial_state)
  = Ok (c_json
          (error_response (VStr "123") (-32601)
             ("Invalid method: expected " ++ dq ++ "message/send" ++ dq
              ++ ", got " ++ dq ++ "generate" ++ dq))
          400).
Proof.
  exact (f_equal fst
           (wrong_method_response
              (sample_env (Ok (VObj [("jsonrpc", VStr "2.0"); ("id", VStr "123");
                                     ("method", VStr "generate")]))
                          (plain_reply "ok"))
              _ initial_state eq_refl eq_refl eq_refl eq_refl eq_refl)).
Defined.

(** X3. With a sound envelope and the right method, an agent id the registry
    does not know is answered with status 404 and code -32602 under the
    request's id, the error message naming the agent id; the params are not
    looked at. *)
Theorem unknown_agent_response (env : Env) (body_ : value) (st : State) :
  req_json env = Ok body_ ->
  nullish body_ = false ->
  is_string (opt_prop body_ "jsonrpc") "2.0" = true ->
  truthy (opt_prop body_ "id") = true ->
  is_string (opt_prop body_ "method") "message/send" = true ->
  getAgent env (req_param_agentId env) = Ok None ->
  a2aAgentRoute env st
  = (Ok (c_json
           (error_response (opt_prop body_ "id") (-32602)
              ("Agent '" ++ req_param_agentId env ++ "' not found"))
           404),
     with_requestId (opt_prop body_ "id") st).
Proof.
  intros Hbody Hnull Hrpc Hid Hmeth Hagent.
  unfold a2aAgentRoute, try_block, try_catch, bind, lift, ret, set_requestId,
    get_requestId; simpl.
  rewrite Hbody. rewrite !(get_prop_ok _ _ Hnull). simpl.
  rewrite Hrpc, Hid, Hmeth. simpl. rewrite Hagent. reflexivity.
Qed.

(** A well-formed request addressed to "weatherAgent", which the sample
    registry does not hold. *)
Lemma unknown_agent_response_example :
  fst (a2aAgentRoute
         (sample_env_at "weatherAgent" (Ok (sample_request (hello []))) (plain_reply "ok"))
         initial_state)
  = Ok (c_json (error_response (VStr "1") (-32602) "Agent 'weatherAgent' not found") 404).
Proof.
  exact (f_equal fst
           (unknown_agent_response
              (sample_env_at "weatherAgent" (Ok (sample_request (hello [])))
                             (plain_reply "ok"))
              _ initial_state eq_refl eq_refl eq_refl eq_refl eq_refl eq_refl)).
Defined.

(** ** What every response looks like *)

(** X4. Whatever the handler answers is a JSON-RPC 2.0 response under the
    request's id (null when the request has no truthy id): either the
    success, with status 200, a task as result and no error, or an error
    without result, whose status and code are one of the five pairs the
    handler knows. *)
Theorem response_well_formed (env : Env) (st st' : State) (resp : Response) :
  a2aAgentRoute env st = (Ok resp, st') ->
  at_path (body resp) ["jsonrpc"] = VStr "2.0"
  /\ at_path (body resp) ["id"] = or_else (request_id env) VNull
  /\ ((status resp = 200%Z
       /\ error_of resp = VUndefined
       /\ at_path (body resp) ["result"; "kind"] = VStr "task")
      \/ (result_of resp = VUndefined
          /\ (exists message, at_path (body resp) ["error"; "message"] = VStr message)
          /\ In (status resp, at_path (body resp) ["error"; "code"])
                [(400%Z, VNum (-32600)); (400%Z, VNum (-32601)); (404%Z, VNum (-32602));
                 (400%Z, VNum (-32602)); (500%Z, VNum (-32603))])).
Proof.
  intros Hrun.
  assert (Hcatch : forall e st1,
             a2aAgentRoute env st = catch_block env e st1 ->
             requestId st1 = or_else (request_id env) VNull ->
             at_path (body resp) ["jsonrpc"] = VStr "2.0"
             /\ at_path (body resp) ["id"] = or_else (request_id env) VNull
             /\ result_of resp = VUndefined
             /\ (exists message, at_path (body resp) ["error"; "message"] = VStr message)
             /\ (status resp, at_path (body resp) ["error"; "code"])
                = (500%Z, VNum (-32603))).
  { intros e st1 Heq Hid. rewrite Heq in Hrun.
    apply catch_block_ok in Hrun. destruct Hrun as (d & _ & -> & _).
    simpl. rewrite Hid. repeat split. eexists. reflexivity. }
  destruct (validate env) as [rq|why|e] eqn:Hv.
  - destruct (accepted_id _ _ Hv) as [_ Hid].
    pose proof (route_accepted_cases env rq st Hv) as Hcases.
    destruct (mastraMessage env (rq_message rq)) as [mm|e].
    + destruct (generate (rq_agent rq) (agent_calls st) [mm]) as [response|e].
      * destruct (existsb nullish (tool_results response)).
        -- destruct Hcases as (t & st1 & Heq & Hr & _).
           destruct (Hcatch _ _ Heq) as (H1 & H2 & H3 & H4 & H5); [congruence|].
           split; [exact H1|]. split; [exact H2|]. right.
           split; [exact H3|]. split; [exact H4|]. rewrite H5. simpl. auto 6.
        -- destruct Hcases as (st1 & Heq & _).
           rewrite Heq in Hrun. injection Hrun as <- <-.
           simpl. rewrite Hid. split; [reflexivity|]. split; [reflexivity|].
           left. repeat split.
      * destruct Hcases as (st1 & Heq & Hr & _).
        destruct (Hcatch _ _ Heq) as (H1 & H2 & H3 & H4 & H5); [congruence|].
        split; [exact H1|]. split; [exact H2|]. right.
        split; [exact H3|]. split; [exact H4|]. rewrite H5. simpl. auto 6.
    + destruct Hcases as (_ & st1 & Heq & Hr & _).
      destruct (Hcatch _ _ Heq) as (H1 & H2 & H3 & H4 & H5); [congruence|].
      split; [exact H1|]. split; [exact H2|]. right.
      split; [exact H3|]. split; [exact H4|]. rewrite H5. simpl. auto 6.
  - destruct (route_rejected_cases env why st Hv) as [(message & Heq) | (_ & Heq)].
    + rewrite Heq in Hrun. injection Hrun as <- <-.
      simpl. split; [reflexivity|]. split; [reflexivity|]. right.
      split; [reflexivity|]. split; [eexists; reflexivity|].
      destruct why; simpl; auto 6.
    + destruct (Hcatch _ _ Heq) as (H1 & H2 & H3 & H4 & H5); [reflexivity|].
      split; [exact H1|]. split; [exact H2|]. right.
      split; [exact H3|]. split; [exact H4|]. rewrite H5. simpl. auto 6.
  - destruct (route_failed_cases env e st Hv) as [Heq _].
    destruct (Hcatch _ _ Heq) as (H1 & H2 & H3 & H4 & H5); [reflexivity|].
    split; [exact H1|]. split; [exact H2|]. right.
    split; [exact H3|]. split; [exact H4|]. rewrite H5. simpl. auto 6.
Qed.

(** A request under the numeric id 7 whose message is missing. *)
Lemma response_well_formed_example :
  exists resp st',
    a2aAgentRoute
      (sample_env (Ok (VObj [("jsonrpc", VStr "2.0"); ("id", VNum 7);
                             ("method", VStr "message/send")]))
                  (plain_reply "ok"))
      initial_state = (Ok resp, st')
    /\ at_path (body resp) ["jsonrpc"] = VStr "2.0"
    /\ at_path (body resp) ["id"] = VNum 7.
Proof.
  eexists _, _. split; [reflexivity|].
  destruct (response_well_formed
              (sample_env (Ok (VObj [("jsonrpc", VStr "2.0"); ("id", VNum 7);
                                     ("method", VStr "message/send")]))
                          (plain_reply "ok"))
              initial_state _ _ eq_refl) as (H1 & H2 & _).
  split; [exact H1 | exact H2].
Defined.

(** ** The agent and the failures *)

(** X5. In one run the agent is invoked at most once, and only for an
    accepted request whose message could be translated: then with the one
    translated message as the whole conversation.  In every other run the
    agent's log is as it was. *)
Theorem agent_invoked_at_most_once (env : Env) (st : State) :
  agent_calls (snd (a2aAgentRoute env st)) = agent_calls st
  \/ exists rq mm,
       validate env = Accepted rq
       /\ mastraMessage env (rq_message rq) = Ok mm
       /\ agent_calls (snd (a2aAgentRoute env st)) = (agent_calls st ++ [[mm]])%list.
Proof.
  destruct (validate env) as [rq|why|e] eqn:Hv.
  - pose proof (route_accepted_cases env rq st Hv) as Hcases.
    destruct (mastraMessage env (rq_message rq)) as [mm|e] eqn:Hmm.
    + right. exists rq, mm. split; [reflexivity|]. split; [exact Hmm|].
      destruct (generate (rq_agent rq) (agent_calls st) [mm]) as [response|e].
      * destruct (existsb nullish (tool_results response)).
        -- destruct Hcases as (t & st1 & Heq & _ & Hc & _).
           rewrite Heq, catch_block_state. exact Hc.
        -- destruct Hcases as (st1 & Heq & _ & Hc & _).
           rewrite Heq. exact Hc.
      * destruct Hcases as (st1 & Heq & _ & Hc & _).
        rewrite Heq, catch_block_state. exact Hc.
    + left. destruct Hcases as (_ & st1 & Heq & _ & Hc & _).
      rewrite Heq, catch_block_state. exact Hc.
  - left. destruct (route_rejected_cases env why st Hv) as [(message & Heq) | (_ & Heq)];
      rewrite Heq; [|rewrite catch_block_state]; reflexivity.
  - left. destruct (route_failed_cases env e st Hv) as [Heq _].
    rewrite Heq, catch_block_state. reflexivity.
Qed.

(** X6. The handler answers every request but one kind: when [c.req.json],
    the registry or the agent throws null or undefined, the [catch] block
    logs the error and then fails itself on [error.message], and the failure
    leaves the handler. *)
Theorem handler_answers_or_rethrows (env : Env) (st : State) :
  (exists resp st', a2aAgentRoute env st = (Ok resp, st'))
  \/ exists v st',
       nullish v = true
       /\ a2aAgentRoute env st = (Throw (TypeError (NullishAccess v "message")), st')
       /\ console st' = (console st ++ [LogRouteError (Thrown v)])%list
       /\ (req_json env = Throw (Thrown v)
           \/ getAgent env (req_param_agentId env) = Throw (Thrown v)
           \/ exists rq mm,
                validate env = Accepted rq
                /\ mastraMessage env (rq_message rq) = Ok mm
                /\ generate (rq_agent rq) (agent_calls st) [mm] = Throw (Thrown v)).
Proof.
  assert (Hreadable : forall e st1,
             readable_error e = true ->
             a2aAgentRoute env st = catch_block env e st1 ->
             exists resp st', a2aAgentRoute env st = (Ok resp, st')).
  { intros e st1 Hr Heq. destruct (error_message_readable env e Hr) as (d & Hd).
    rewrite Heq, (catch_block_run _ _ _ _ Hd). eexists _, _. reflexivity. }
  assert (Hcatch : forall e st1,
             a2aAgentRoute env st = catch_block env e st1 ->
             console st1 = console st ->
             (exists resp st', a2aAgentRoute env st = (Ok resp, st'))
             \/ exists v st',
                  nullish v = true /\ e = Thrown v
                  /\ a2aAgentRoute env st
                     = (Throw (TypeError (NullishAccess v "message")), st')
                  /\ console st' = (console st ++ [LogRouteError (Thrown v)])%list).
  { intros e st1 Heq Hl.
    destruct (catch_block env e st1) as [[resp|e'] st'] eqn:Hc.
    - left. exists resp, st'. exact Heq.
    - right. apply catch_block_throws in Hc. destruct Hc as (v & -> & Hn & -> & ->).
      exists v. eexists. split; [exact Hn|]. split; [reflexivity|].
      split; [exact Heq|]. simpl. rewrite Hl. reflexivity. }
  destruct (validate env) as [rq|why|e] eqn:Hv.
  - pose proof (route_accepted_cases env rq st Hv) as Hcases.
    destruct (mastraMessage env (rq_message rq)) as [mm|e] eqn:Hmm.
    + destruct (generate (rq_agent rq) (agent_calls st) [mm]) as [response|e] eqn:Hgen.
      * destruct (existsb nullish (tool_results response)).
        -- destruct Hcases as (t & st1 & Heq & _).
           left. refine (Hreadable _ _ _ Heq); reflexivity.
        -- destruct Hcases as (st1 & Heq & _). left. eexists _, _. exact Heq.
      * destruct Hcases as (st1 & Heq & _ & _ & Hl).
        destruct (Hcatch _ _ Heq Hl) as [Hok | (v & st' & Hn & -> & Hrun & Hcon)];
          [left; exact Hok|].
        right. exists v, st'. split; [exact Hn|]. split; [exact Hrun|].
        split; [exact Hcon|]. right. right. exists rq, mm.
        split; [reflexivity|]. split; [exact Hmm | exact Hgen].
    + destruct Hcases as ((t & ->) & st1 & Heq & _).
      left. refine (Hreadable _ _ _ Heq); reflexivity.
  - left. destruct (route_rejected_cases env why st Hv) as [(message & Heq) | (_ & Heq)].
    + eexists _, _. exact Heq.
    + refine (Hreadable _ _ _ Heq); reflexivity.
  - destruct (route_failed_cases env e st Hv) as [Heq Horigin].
    destruct (Hcatch _ _ Heq eq_refl) as [Hok | (v & st' & Hn & -> & Hrun & Hcon)];
      [left; exact Hok|].
    right. exists v, st'. split; [exact Hn|]. split; [exact Hrun|].
    split; [exact Hcon|].
    destruct Horigin as [H | [(t & H) | H]]; [left; exact H | discriminate | right; left; exact H].
Qed.

(** X7. When the agent fails with an error whose [message] can be read, the
    handler logs the error once and answers with status 500 and code -32603
    under the request's id, the details being that message; the agent has
    been invoked once, with the translated message. *)
Theorem agent_failure_response (env : Env) (rq : Request) (mm : MastraMessage)
  (e : exn) (details : value) (st : State) :
  validate env = Accepted rq ->
  mastraMessage env (rq_message rq) = Ok mm ->
  generate (rq_agent rq) (agent_calls st) [mm] = Throw e ->
  error_message env e = Ok details ->
  exists st',
    a2aAgentRoute env st
    = (Ok (c_json (internal_error_response (rq_id rq) details) 500), st')
    /\ console st' = (console st ++ [LogRouteError e])%list
    /\ agent_calls st' = (agent_calls st ++ [[mm]])%list.
Proof.
  intros Hv Hmm Hgen Hd.
  pose proof (route_accepted_cases env rq st Hv) as Hcases.
  rewrite Hmm, Hgen in Hcases. destruct Hcases as (st1 & Heq & Hr & Hc & Hl).
  rewrite Heq, (catch_block_run _ _ _ _ Hd), Hr.
  eexists. split; [reflexivity|]. simpl. rewrite Hc, Hl. split; reflexivity.
Qed.

(** An agent that times out. *)
Lemma agent_failure_response_example :
  exists st',
    a2aAgentRoute (serve (hello []) (Throw (ErrorObject "timeout"))) initial_state
    = (Ok (c_json (internal_error_response (VStr "1") (VStr "timeout")) 500), st')
    /\ console st' = [LogRouteError (ErrorObject "timeout")]
    /\ agent_calls st' = [[{| role := VStr "user"; content := VStr "hi" |}]].
Proof.
  exact (agent_failure_response
           (serve (hello []) (Throw (ErrorObject "timeout")))
           (sample_accepted (hello []) (Throw (ErrorObject "timeout")))
           {| role := VStr "user"; content := VStr "hi" |}
           (ErrorObject "timeout") (VStr "timeout") initial_state
           eq_refl eq_refl eq_refl eq_refl).
Defined.



(** ** The console *)

(** X9. What a run that answers writes to the console is decided by the
    status: a success writes the webhook line of a non-blocking request that
    names a URL and nothing else, a status 500 writes the one caught error,
    and a rejection (400 or 404) writes nothing. *)
Theorem console_after_response (env : Env) (st st' : State) (resp : Response) :
  a2aAgentRoute env st = (Ok resp, st') ->
  (status resp = 200%Z
   /\ exists rq,
        validate env = Accepted rq
        /\ console st' = (console st ++ webhook_log (rq_configuration rq))%list)
  \/ (status resp = 500%Z
      /\ exists e, console st' = (console st ++ [LogRouteError e])%list)
  \/ ((status resp = 400%Z \/ status resp = 404%Z) /\ console st' = console st).
Proof.
  intros Hrun.
  assert (Hcatch : forall e st1,
             a2aAgentRoute env st = catch_block env e st1 ->
             console st1 = console st ->
             status resp = 500%Z
             /\ exists e, console st' = (console st ++ [LogRouteError e])%list).
  { intros e st1 Heq Hl. rewrite Heq in Hrun.
    destruct (catch_block_answer _ _ _ _ _ Hrun) as (Hs & Hc & _).
    split; [exact Hs|]. exists e. rewrite Hc, Hl. reflexivity. }
  destruct (validate env) as [rq|why|e] eqn:Hv.
  - pose proof (route_accepted_cases env rq st Hv) as Hcases.
    destruct (mastraMessage env (rq_message rq)) as [mm|e].
    + destruct (generate (rq_agent rq) (agent_calls st) [mm]) as [response|e].
      * destruct (existsb nullish (tool_results response)).
        -- destruct Hcases as (t & st1 & Heq & _ & _ & Hl).
           right. left. exact (Hcatch _ _ Heq Hl).
        -- destruct Hcases as (st1 & Heq & Hl & _).
           rewrite Heq in Hrun. injection Hrun as <- <-.
           left. split; [reflexivity|]. exists rq. split; [reflexivity | exact Hl].
      * destruct Hcases as (st1 & Heq & _ & _ & Hl).
        right. left. exact (Hcatch _ _ Heq Hl).
    + destruct Hcases as (_ & st1 & Heq & _ & _ & Hl).
      right. left. exact (Hcatch _ _ Heq Hl).
  - destruct (route_rejected_cases env why st Hv) as [(message & Heq) | (_ & Heq)].
    + rewrite Heq in Hrun. injection Hrun as <- <-.
      right. right. split; [|reflexivity]. destruct why; simpl; auto.
    + right. left. exact (Hcatch _ _ Heq eq_refl).
  - destruct (route_failed_cases env e st Hv) as [Heq _].
    right. left. exact (Hcatch _ _ Heq eq_refl).
Qed.

(** A non-blocking request with a webhook URL: answered as any other, the
    URL logged. *)
Lemma console_after_response_example :
  exists resp st',
    a2aAgentRoute
      (sample_env
         (Ok (VObj [("jsonrpc", VStr "2.0"); ("id", VStr "1");
                    ("method", VStr "message/send");
                    ("params",
                      VObj [("message", hello []);
                            ("configuration",
                              VObj [("blocking", VBool false);
                                    ("pushNotificationConfig",
                                      VObj [("url", VStr "https://example.org/hook")])])])]))
         (plain_reply "ok"))
      initial_state = (Ok resp, st')
    /\ status resp = 200%Z
    /\ console st' = [LogWebhook (VStr "https://example.org/hook")].
Proof.
  eexists _, _. split; [reflexivity|].
  destruct (console_after_response
              (sample_env
                 (Ok (VObj [("jsonrpc", VStr "2.0"); ("id", VStr "1");
                            ("method", VStr "message/send");
                            ("params",
                              VObj [("message", hello []);
                                    ("configuration",
                                      VObj [("blocking", VBool false);
                                            ("pushNotificationConfig",
                                              VObj [("url",
                                                      VStr "https://example.org/hook")])])])]))
                 (plain_reply "ok"))
              initial_state _ _ eq_refl)
    as [(Hs & rq & Hv & Hl) | [(Hs & _) | ([Hs | Hs] & _)]]; try discriminate Hs.
  split; [exact Hs|]. injection Hv as <-. exact Hl.
Defined.

(** ** The success response *)

(** X10. A success response is consistent with itself: the status message is
    the second history entry (same message id, same role, same parts), the
    two history entries carry the task id of the result, and the timestamp
    is the one instant read from the clock. *)
Theorem status_message_in_history (env : Env) (st st' : State) (resp : Response) :
  a2aAgentRoute env st = (Ok resp, st') ->
  successful resp ->
  let result := result_of resp in
  let reply := nth_item 1 (opt_prop result "history") in
  at_path result ["status"; "message"; "messageId"] = opt_prop reply "messageId"
  /\ at_path result ["status"; "message"; "role"] = opt_prop reply "role"
  /\ at_path result ["status"; "message"; "parts"] = opt_prop reply "parts"
  /\ at_path result ["status"; "message"; "kind"] = opt_prop reply "kind"
  /\ opt_prop reply "taskId" = opt_prop result "id"
  /\ opt_prop (nth_item 0 (opt_prop result "history")) "taskId" = opt_prop result "id"
  /\ at_path result ["status"; "timestamp"] = VStr (now_iso env).
Proof.
  intros Hrun Hok.
  destruct (success_shape _ _ _ _ Hrun Hok)
    as (rq & mm & response & _ & _ & _ & _ & Hb & _).
  unfold result_of. rewrite Hb. cbv zeta. repeat split.
Qed.

Lemma status_message_in_history_example :
  exists resp st',
    a2aAgentRoute (serve (hello []) (plain_reply "ok")) initial_state = (Ok resp, st')
    /\ at_path (result_of resp) ["status"; "message"; "messageId"]
       = opt_prop (nth_item 1 (opt_prop (result_of resp) "history")) "messageId"
    /\ at_path (result_of resp) ["status"; "timestamp"] = VStr "2025-11-03T10:00:00.000Z".
Proof.
  eexists _, _. split; [reflexivity|].
  destruct (status_message_in_history (serve (hello []) (plain_reply "ok"))
              initial_state _ _ eq_refl eq_refl) as (H1 & _ & _ & _ & _ & _ & H7).
  split; [exact H1 | exact H7].
Defined.

(** X11. Every UUID drawn during a successful run ends up in the response,
    once and in the order drawn: the identifiers the handler made (task id
    and context id unless supplied, the reply's message id, the artifact
    ids, the inbound message's id unless supplied) are exactly the UUIDs
    drawn between the start and the end of the run.  So they are pairwise
    distinct as long as [randomUUID] does not repeat itself. *)
Theorem generated_ids_are_the_drawn (env : Env) (rq : Request) (st st' : State)
  (resp : Response) :
  validate env = Accepted rq ->
  a2aAgentRoute env st = (Ok resp, st') ->
  successful resp ->
  generated_ids (rq_message rq) resp
  = map (fun k => VStr (uuid_source env k))
        (seq (uuids_issued st) (uuids_issued st' - uuids_issued st))
  /\ ((forall a b, uuid_source env a = uuid_source env b -> a = b) ->
      NoDup (generated_ids (rq_message rq) resp)).
Proof.
  intros Hv Hrun Hok.
  destruct (success_shape _ _ _ _ Hrun Hok)
    as (rq' & mm & response & Hv' & _ & _ & _ & Hb & Hn & _).
  rewrite Hv in Hv'. injection Hv' as <-.
  assert (Hids : generated_ids (rq_message rq) resp
                 = map (fun k => VStr (uuid_source env k))
                       (seq (uuids_issued st) (uuids_issued st' - uuids_issued st))).
  { unfold generated_ids. rewrite Hb, Hn.
    unfold task_body, drawn_in_all, a2aResponse, history_of. cbv zeta.
    change (at_path ?v ["result"; "artifacts"]) with
      (opt_prop (opt_prop v "result") "artifacts").
    simpl opt_prop. simpl at_path. simpl nth_item. simpl opt_prop.
    rewrite artifact_ids_from.
    unfold supplied_or, drawn_after.
    set (n0 := uuids_issued st). set (len := length (tool_results response)).
    destruct (truthy (opt_prop (rq_message rq) "taskId")),
      (truthy (opt_prop (rq_message rq) "contextId")),
      (truthy (opt_prop (rq_message rq) "messageId")); simpl app.
    all: rewrite ?app_nil_r.
    - replace (S n0 + len - n0) with (S len) by lia. reflexivity.
    - replace (S (S n0 + len) - n0) with (S (len + 1)) by lia.
      simpl seq. rewrite seq_app. simpl. rewrite map_app. reflexivity.
    - replace (S (S n0) + len - n0) with (S (S len)) by lia. reflexivity.
    - replace (S (S (S n0) + len) - n0) with (S (S (len + 1))) by lia.
      simpl seq. rewrite seq_app. simpl. rewrite map_app. reflexivity.
    - replace (S (S n0) + len - n0) with (S (S len)) by lia. reflexivity.
    - replace (S (S (S n0) + len) - n0) with (S (S (len + 1))) by lia.
      simpl seq. rewrite seq_app. simpl. rewrite map_app. reflexivity.
    - replace (S (S (S n0)) + len - n0) with (S (S (S len))) by lia. reflexivity.
    - replace (S (S (S (S n0)) + len) - n0) with (S (S (S (len + 1)))) by lia.
      simpl seq. rewrite seq_app. simpl. rewrite map_app. reflexivity. }
  split; [exact Hids|].
  intros Hinj. rewrite Hids.
  apply Injective_map_NoDup; [|apply seq_NoDup].
  intros a b [= H]. apply Hinj, H.
Qed.

(** A message without ids answered with one tool result: five UUIDs are
    drawn, and all five are in the response. *)
Lemma generated_ids_are_the_drawn_example :
  exists resp st',
    a2aAgentRoute (serve (hello []) (tool_reply "done" [VObj [("name", VStr "search")]]))
                  initial_state
    = (Ok resp, st')
    /\ generated_ids (hello []) resp
       = [VStr "uuid-0"; VStr "uuid-1"; VStr "uuid-2"; VStr "uuid-3"; VStr "uuid-4"]
    /\ NoDup (generated_ids (hello []) resp).
Proof.
  eexists _, _. split; [reflexivity|].
  destruct (generated_ids_are_the_drawn
              (serve (hello []) (tool_reply "done" [VObj [("name", VStr "search")]]))
              (sample_accepted (hello [])
                 (tool_reply "done" [VObj [("name", VStr "search")]]))
              initial_state _ _ eq_refl eq_refl eq_refl) as [Hids Hnodup].
  split; [exact Hids | exact (Hnodup sample_uuid_injective)].
Defined.

(** X12. An accepted request whose parts can be read, answered by the agent
    with tool results none of which is null or undefined, always succeeds:
    status 200, the task in closed form, the agent invoked once with the
    joined content. *)
Theorem accepted_request_succeeds (env : Env) (rq : Request) (parts : list value)
  (response : GenerateResult) (st : State) :
  validate env = Accepted rq ->
  opt_prop (rq_message rq) "parts" = VArr parts ->
  forallb (part_readable env) parts = true ->
  generate (rq_agent rq) (agent_calls st)
    [{| role := opt_prop (rq_message rq) "role";
        content := VStr (joined_content env parts) |}] = Ok response ->
  existsb nullish (tool_results response) = false ->
  exists st',
    a2aAgentRoute env st
    = (Ok (c_json (task_body env rq (uuids_issued st) response) 200), st')
    /\ agent_calls st'
       = (agent_calls st
            ++ [[{| role := opt_prop (rq_message rq) "role";
                    content := VStr (joined_content env parts) |}]])%list
    /\ uuids_issued st' = drawn_in_all rq (uuids_issued st) response
    /\ console st' = (console st ++ webhook_log (rq_configuration rq))%list.
Proof.
  intros Hv Hparts Hread Hgen Htools.
  destruct (accepted_message_truthy _ _ Hv) as (Hm & _).
  pose proof (mastraMessage_translation env _ _ Hm Hparts) as Hmm.
  rewrite Hread in Hmm.
  pose proof (route_accepted_cases env rq st Hv) as Hcases.
  rewrite Hmm, Hgen, Htools in Hcases.
  destruct Hcases as (st' & Heq & Hl & Hc & Hn).
  exists st'. split; [exact Heq|]. split; [exact Hc|]. split; [exact Hn | exact Hl].
Qed.

(** The specification's two parts, answered "ok". *)
Lemma accepted_request_succeeds_example :
  exists st',
    a2aAgentRoute
      (serve (sample_message (VArr [text_part "a"; data_part (VObj [("x", VNum 1)])]) [])
             (plain_reply "ok"))
      initial_state
    = (Ok (c_json
             (task_body
                (serve (sample_message
                          (VArr [text_part "a"; data_part (VObj [("x", VNum 1)])]) [])
                       (plain_reply "ok"))
                (sample_accepted
                   (sample_message
                      (VArr [text_part "a"; data_part (VObj [("x", VNum 1)])]) [])
                   (plain_reply "ok"))
                0 {| text := VStr "ok"; toolResults := None |})
             200), st')
    /\ agent_calls st'
       = [[{| role := VStr "user";
              content := VStr ("a" ++ lf ++ "{" ++ dq ++ "x" ++ dq ++ ":1}") |}]]
    /\ uuids_issued st' = 4
    /\ console st' = [].
Proof.
  exact (accepted_request_succeeds
           (serve (sample_message
                     (VArr [text_part "a"; data_part (VObj [("x", VNum 1)])]) [])
                  (plain_reply "ok"))
           (sample_accepted
              (sample_message
                 (VArr [text_part "a"; data_part (VObj [("x", VNum 1)])]) [])
              (plain_reply "ok"))
           [text_part "a"; data_part (VObj [("x", VNum 1)])]
           {| text := VStr "ok"; toolResults := None |}
           initial_state eq_refl eq_refl eq_refl eq_refl eq_refl).
Defined.

(** X13. A tool result that is null or undefined makes the handler fail
    while it builds the artifacts, after the agent has answered: the request
    ends with status 500 and code -32603 under the request's id, and the
    agent's answer is lost. *)
Theorem nullish_tool_result_response (env : Env) (rq : Request) (mm : MastraMessage)
  (response : GenerateResult) (st : State) :
  validate env = Accepted rq ->
  mastraMessage env (rq_message rq) = Ok mm ->
  generate (rq_agent rq) (agent_calls st) [mm] = Ok response ->
  existsb nullish (tool_results response) = true ->
  exists t st',
    a2aAgentRoute env st
    = (Ok (c_json (internal_error_response (rq_id rq) (VStr (type_error_message env t)))
                  500), st')
    /\ console st' = (console st ++ [LogRouteError (TypeError t)])%list
    /\ agent_calls st' = (agent_calls st ++ [[mm]])%list.
Proof.
  intros Hv Hmm Hgen Htools.
  pose proof (route_accepted_cases env rq st Hv) as Hcases.
  rewrite Hmm, Hgen, Htools in Hcases.
  destruct Hcases as (t & st1 & Heq & Hr & Hc & Hl).
  exists t. rewrite Heq, (catch_block_run env (TypeError t) _ st1 eq_refl), Hr.
  eexists. split; [reflexivity|]. simpl. rewrite Hc, Hl. split; reflexivity.
Qed.

Lemma nullish_tool_result_response_example :
  exists t st',
    a2aAgentRoute (serve (hello []) (tool_reply "done" [VObj []; VNull])) initial_state
    = (Ok (c_json (internal_error_response (VStr "1")
                     (VStr (type_error_message
                              (serve (hello []) (tool_reply "done" [VObj []; VNull])) t)))
                  500), st')
    /\ console st' = [LogRouteError (TypeError t)]
    /\ agent_calls st' = [[{| role := VStr "user"; content := VStr "hi" |}]].
Proof.
  exact (nullish_tool_result_response
           (serve (hello []) (tool_reply "done" [VObj []; VNull]))
           (sample_accepted (hello []) (tool_reply "done" [VObj []; VNull]))
           {| role := VStr "user"; content := VStr "hi" |}
           {| text := VStr "done"; toolResults := Some [VObj []; VNull] |}
           initial_state eq_refl eq_refl eq_refl eq_refl).
Defined.

(** X14. Parts that pass validation but cannot be translated (a truthy
    value that is no array, a part that is null, a text with no string form)
    end in the [catch] block: status 500 and code -32603 under the
    request's id, the error logged, the agent not invoked. *)
Theorem unreadable_parts_response (env : Env) (rq : Request) (st : State) :
  validate env = Accepted rq ->
  parts_readable env (opt_prop (rq_message rq) "parts") = false ->
  exists t st',
    a2aAgentRoute env st
    = (Ok (c_json (internal_error_response (rq_id rq) (VStr (type_error_message env t)))
                  500), st')
    /\ console st' = (console st ++ [LogRouteError (TypeError t)])%list
    /\ agent_calls st' = agent_calls st.
Proof.
  intros Hv Hparts.
  destruct (accepted_message_truthy _ _ Hv) as (Hm & _).
  destruct (unreadable_parts_throw env _ Hm Hparts) as (t & Hmm).
  pose proof (route_accepted_cases env rq st Hv) as Hcases.
  rewrite Hmm in Hcases. destruct Hcases as (_ & st1 & Heq & Hr & Hc & Hl).
  exists t. rewrite Heq, (catch_block_run env (TypeError t) _ st1 eq_refl), Hr.
  eexists. split; [reflexivity|]. simpl. rewrite Hc, Hl. split; reflexivity.
Qed.

(** Parts given as a string, and a part that is null. *)
Lemma unreadable_parts_response_example :
  (exists t st',
     a2aAgentRoute (serve (sample_message (VStr "hi") []) (plain_reply "ok")) initial_state
     = (Ok (c_json (internal_error_response (VStr "1")
                      (VStr (type_error_message
                               (serve (sample_message (VStr "hi") []) (plain_reply "ok"))
                               t)))
                   500), st')
     /\ console st' = [LogRouteError (TypeError t)]
     /\ agent_calls st' = [])
  /\ (exists t st',
        a2aAgentRoute (serve (sample_message (VArr [VNull]) []) (plain_reply "ok"))
                      initial_state
        = (Ok (c_json (internal_error_response (VStr "1")
                         (VStr (type_error_message
                                  (serve (sample_message (VArr [VNull]) [])
                                         (plain_reply "ok")) t)))
                      500), st')
        /\ console st' = [LogRouteError (TypeError t)]
        /\ agent_calls st' = []).
Proof.
  split.
  - exact (unreadable_parts_response
             (serve (sample_message (VStr "hi") []) (plain_reply "ok"))
             (sample_accepted (sample_message (VStr "hi") []) (plain_reply "ok"))
             initial_state eq_refl eq_refl).
  - exact (unreadable_parts_response
             (serve (sample_message (VArr [VNull]) []) (plain_reply "ok"))
             (sample_accepted (sample_message (VArr [VNull]) []) (plain_reply "ok"))
             initial_state eq_refl eq_refl).
Defined.
